(** * Voice dictation: recording controller and transcription gateway

    A shallow embedding of
      - src/services/dictation/VoiceTranscriptionService.ts
          (class VoiceTranscriptionService, getVoiceTranscriptionService)
      - src/core/controller/dictation/startRecording.ts
          (startRecording)
    and the properties of their outcome objects, error classification and
    collaborator calls.

    JavaScript strings are modelled as [string], holding the UTF-8 bytes of
    the text ([Js.length] counts their UTF-16 code units),
    HTTP status codes as [Z], optional properties as [option].  Asynchronous
    calls are sequential here (every promise is awaited at once), so a
    collaborator is a value in an environment saying how its call ends:
    it resolves with a value or rejects with a thrown value.  Calls made and
    log lines written are recorded, in order, in a trace of events. *)

From Stdlib Require Import String Ascii List ZArith Bool Arith Lia.
Import ListNotations.
Local Open Scope string_scope.
Local Open Scope list_scope.

(* ------------------------------------------------------------------ *)
(** ** JavaScript string primitives used by the code *)

Module Js.

(** [s.includes(sub)]: [sub] occurs in [s] as a contiguous run. *)
Fixpoint includes (s sub : string) : bool :=
  if String.prefix sub s then true
  else match s with
       | EmptyString => false
       | String _ s' => includes s' sub
       end.

Definition lower_ascii (c : ascii) : ascii :=
  let n := nat_of_ascii c in
  if (65 <=? n)%nat && (n <=? 90)%nat then ascii_of_nat (n + 32) else c.

(** [s.toLowerCase()].  Bytes outside A-Z are kept: the only
    non-ASCII letters whose lower case has an ASCII letter are U+212A
    (k) and U+0130 (i followed by a combining dot), and none of the
    substrings the code searches for can match across them. *)
Fixpoint toLowerCase (s : string) : string :=
  match s with
  | EmptyString => EmptyString
  | String c s' => String (lower_ascii c) (toLowerCase s')
  end.

(** The UTF-16 code units a byte of well-formed UTF-8 stands for: one for
    an ASCII byte and for the first byte of a two- or three-byte sequence,
    two (a surrogate pair) for the first byte of a four-byte sequence, none
    for a continuation byte. *)
Definition utf16_units (c : ascii) : nat :=
  let n := nat_of_ascii c in
  if (n <? 128)%nat then 1
  else if (n <? 192)%nat then 0
  else if (n <? 240)%nat then 1
  else 2.

(** [s.length]: the number of UTF-16 code units of the text. *)
Fixpoint length (s : string) : nat :=
  match s with
  | EmptyString => 0
  | String c s' => utf16_units c + length s'
  end.

(** Truthiness of a string: every string but the empty one. *)
Definition truthy (s : string) : bool :=
  match s with EmptyString => false | _ => true end.

(** Truthiness of an optional string property. *)
Definition truthy_opt (v : option string) : bool :=
  match v with Some s => truthy s | None => false end.

(** [a || b] where [b] is a string. *)
Definition or_string (a : option string) (b : string) : string :=
  match a with
  | Some s => if truthy s then s else b
  | None => b
  end.

(** [a || b] where both are optional properties. *)
Definition or_opt (a b : option string) : option string :=
  if truthy_opt a then a else b.

(** [a ?? b]. *)
Definition nullish (a : option string) (b : string) : string :=
  match a with Some s => s | None => b end.

(** Primitive values that are not [Error] objects. *)
Inductive Value : Type :=
| Undefined
| Null
| Boolean (b : bool)
| Str (s : string).

(** [String(v)]. *)
Definition String_ (v : Value) : string :=
  match v with
  | Undefined => "undefined"
  | Null => "null"
  | Boolean true => "true"
  | Boolean false => "false"
  | Str s => s
  end.

End Js.

(* ------------------------------------------------------------------ *)
(** ** Thrown values *)

(** Body of an HTTP error response, as far as the code reads it:
    [data?.error] and [data?.message].  Both are strings when present,
    which is how the code uses them ([includes], [toLowerCase]); a body
    with a field of another type is outside this model, and no statement
    below says what the catch block does with it. *)
Record ResponseData : Type := mkResponseData {
  data_error : option string;
  data_message : option string
}.

Record AxiosResponse : Type := mkAxiosResponse {
  status : Z;
  data : option ResponseData
}.

(** An error for which [axios.isAxiosError] holds.  [response] is absent
    when the request never got an answer. *)
Record AxiosError : Type := mkAxiosError {
  response : option AxiosResponse;
  axios_message : string
}.

Inductive Thrown : Type :=
| ThrownAxios (e : AxiosError)      (* axios.isAxiosError(error); also an Error *)
| ThrownError (message : string)    (* error instanceof Error, not from axios *)
| ThrownValue (v : Js.Value).       (* any other thrown value *)

(** How an awaited call ends. *)
Inductive Result (A : Type) : Type :=
| Returned (a : A)
| Raised (t : Thrown).
Arguments Returned {A} a.
Arguments Raised {A} t.

(* ------------------------------------------------------------------ *)
(** ** Events: the calls made to collaborators, in order *)

(** [ShowMessageType] of the host's window service. *)
Inductive ShowMessageType : Type := ERROR | INFORMATION | WARNING.

Inductive Event : Type :=
| Logger_info (msg : string)
| Logger_warn (msg : string) (e : Thrown)
| Logger_error (msg : string) (e : Thrown)
| console_error (msg : string) (e : Thrown)
| ClineAccountService_fetchMe
| ClineAccountService_transcribeAudio (audioBase64 : string) (language : option string)
| import_telemetry
| captureVoiceTranscriptionCompleted
    (characters : option nat) (language : option string) (isOrgAccount : bool)
| authService_getInfo
| audioRecordingService_startRecording
| captureVoiceRecordingStarted (taskId : option string) (platform : string)
| controller_initTask (text : string)
| window_showMessage (type : ShowMessageType) (message : string) (items : list string)
| authService_createAuthRequest.

(* ------------------------------------------------------------------ *)
(** ** A monad for sequential code with exceptions and a call trace *)

Section Monad.
Context {E : Type}.   (* the collaborators' behaviour *)

Definition M (A : Type) : Type := E -> Result A * list Event.

Definition ret {A} (a : A) : M A := fun _ => (Returned a, []).

Definition throw {A} (t : Thrown) : M A := fun _ => (Raised t, []).

Definition bind {A B} (m : M A) (k : A -> M B) : M B := fun env =>
  match m env with
  | (Returned a, tr) => let (r, tr') := k a env in (r, tr ++ tr')
  | (Raised t, tr) => (Raised t, tr)
  end.

(** [try { body } catch (error) { handler error }] *)
Definition try_catch {A} (body : M A) (handler : Thrown -> M A) : M A :=
  fun env =>
    match body env with
    | (Returned a, tr) => (Returned a, tr)
    | (Raised t, tr) => let (r, tr') := handler t env in (r, tr ++ tr')
    end.

(** A call that cannot fail here (logging). *)
Definition emit (ev : Event) : M unit := fun _ => (Returned tt, [ev]).

(** A call to a collaborator: recorded, and ended as the environment says. *)
Definition call {A} (ev : Event) (behaviour : E -> Result A) : M A :=
  fun env => (behaviour env, [ev]).
End Monad.
Arguments M E A : clear implicits.

Declare Scope js_scope.
Delimit Scope js_scope with js.
Notation "x <- c1 ;; c2" := (bind c1 (fun x => c2))
  (at level 61, c1 at next level, right associativity) : js_scope.
Notation "c1 ;; c2" := (bind c1 (fun _ => c2))
  (at level 61, right associativity) : js_scope.
Notation "'try' body 'catch' handler" := (try_catch body handler)
  (at level 62, body at level 61, handler at level 61) : js_scope.

(* ------------------------------------------------------------------ *)
(** ** src/services/dictation/VoiceTranscriptionService.ts *)

Module VoiceTranscriptionService.
Local Open Scope js_scope.

Record Organization : Type := mkOrganization { active : bool }.

(** What [fetchMe] resolves with, as far as the code reads it. *)
Record UserInfo : Type := mkUserInfo {
  organizations : option (list Organization)
}.

(** What the remote [transcribeAudio] resolves with. *)
Record TranscribeResult : Type := mkTranscribeResult {
  result_text : option string
}.

(** The returned object [{ text?: string; error?: string }]. *)
Record Outcome : Type := mkOutcome {
  text : option string;
  error : option string
}.

(** Behaviour of the collaborators during one call. *)
Record Env : Type := mkEnv {
  fetchMe : Result (option UserInfo);
  account_transcribeAudio : string -> option string -> Result TranscribeResult;
  telemetry_import : Result unit;
  telemetry_capture : Result unit
}.

Definition only_text (t : option string) : Outcome := mkOutcome t None.
Definition only_error (m : string) : Outcome := mkOutcome None (Some m).

Definition msg_no_internet : string :=
  "No internet connection. Please check your network and try again.".
Definition msg_cannot_connect : string :=
  "Cannot connect to transcription service. Please check your internet connection.".
Definition msg_timed_out : string :=
  "Connection timed out. Please check your internet connection and try again.".
Definition msg_network_error : string :=
  "Network error. Please check your internet connection.".
Definition msg_reauthenticate : string :=
  "Authentication failed. Please reauthenticate your Cline account".
Definition msg_insufficient_credits : string :=
  "Insufficient credits for transcription service.".
Definition msg_invalid_audio : string :=
  "Invalid audio format. Please try recording again.".
Definition msg_invalid_request : string :=
  "Invalid audio format or request data.".
Definition msg_server_error : string :=
  "Transcription server error. Please try again later.".

(** [error.response?.status] *)
Definition status_of (e : AxiosError) : option Z :=
  option_map status (response e).

(** [error.response?.data?.error || error.response?.data?.message || error.message] *)
Definition message_of (e : AxiosError) : string :=
  let d := match response e with Some r => data r | None => None end in
  let data_error' := match d with Some d => data_error d | None => None end in
  let data_message' := match d with Some d => data_message d | None => None end in
  Js.or_string (Js.or_opt data_error' data_message') (axios_message e).

(** The [switch (status)] of the catch block. *)
Definition switch_status (status : option Z) (message : string) : Outcome :=
  match status with
  | Some 401%Z => only_error msg_reauthenticate
  | Some 402%Z => only_error msg_insufficient_credits
  | Some 400%Z =>
      let lower := Js.toLowerCase message in
      if Js.includes lower "insufficient balance" || Js.includes lower "insufficient credits"
      then only_error msg_insufficient_credits
      else if Js.includes lower "invalid audio" || Js.includes lower "invalid format"
      then only_error msg_invalid_audio
      else if Js.includes lower "exceeds" && Js.includes lower "limit"
      then only_error message
      else only_error (if Js.truthy message then message else msg_invalid_request)
  | Some 500%Z => only_error msg_server_error
  | _ => only_error ("Transcription failed: " ++ message)%string
  end.

(** The branch [if (axios.isAxiosError(error)) { ... }]. *)
Definition on_axios_error (e : AxiosError) : Outcome :=
  let status := status_of e in
  let message := message_of e in
  if Js.includes message "ENOTFOUND" then only_error msg_no_internet
  else if Js.includes message "ECONNREFUSED" then only_error msg_cannot_connect
  else if Js.includes message "ETIMEDOUT" || Js.includes message "ECONNRESET"
  then only_error msg_timed_out
  else if Js.includes message "Network Error" then only_error msg_network_error
  else switch_status status message.

(** [error instanceof Error ? error.message : String(error)] *)
Definition errorMessage_of (t : Thrown) : string :=
  match t with
  | ThrownAxios e => axios_message e
  | ThrownError m => m
  | ThrownValue v => Js.String_ v
  end.

(** The code after the axios branch. *)
Definition on_other_error (errorMessage : string) : Outcome :=
  if Js.includes errorMessage "ENOTFOUND" then only_error msg_no_internet
  else if Js.includes errorMessage "ECONNREFUSED" || Js.includes errorMessage "Network Error"
  then only_error msg_cannot_connect
  else if Js.includes errorMessage "ETIMEDOUT" || Js.includes errorMessage "ECONNRESET"
  then only_error msg_timed_out
  else only_error ("Network error: " ++ errorMessage)%string.

(** The catch block, after its log line. *)
Definition on_error (t : Thrown) : Outcome :=
  match t with
  | ThrownAxios e => on_axios_error e
  | _ => on_other_error (errorMessage_of t)
  end.

(** [userInfo?.organizations?.find((org) => org.active)] and [!!activeOrg] *)
Definition isOrgAccount_of (userInfo : option UserInfo) : bool :=
  let activeOrg :=
    match userInfo with
    | Some u => match organizations u with
                | Some orgs => List.find (fun org => active org) orgs
                | None => None
                end
    | None => None
    end in
  match activeOrg with Some _ => true | None => false end.

Definition transcribeAudio (audioBase64 : string) (language : option string)
  : M Env Outcome :=
  try (
    emit (Logger_info "Transcribing audio with Cline transcription service...") ;;
    userInfo <- call ClineAccountService_fetchMe fetchMe ;;
    let isOrgAccount := isOrgAccount_of userInfo in
    result <- call (ClineAccountService_transcribeAudio audioBase64 language)
                   (fun env => account_transcribeAudio env audioBase64 language) ;;
    emit (Logger_info "Transcription successful") ;;
    (try (
       call import_telemetry telemetry_import ;;
       call (captureVoiceTranscriptionCompleted
               (option_map Js.length (result_text result)) language isOrgAccount)
            telemetry_capture
     ) catch (fun e =>
       emit (Logger_warn "Could not capture telemetry for voice transcription: " e))) ;;
    ret (only_text (result_text result))
  ) catch (fun error =>
    emit (Logger_error "Voice transcription error:" error) ;;
    ret (on_error error)).

End VoiceTranscriptionService.

(* ------------------------------------------------------------------ *)
(** ** The lazily constructed singleton (same file) *)

Module Singleton.

(** Identity of a [VoiceTranscriptionService] object. *)
Definition Ref : Type := nat.

(** The module variable, and how many objects [new] has made so far
    (the next object's identity). *)
Record ModuleState : Type := mkModuleState {
  _voiceTranscriptionServiceInstance : option Ref;
  constructed : nat
}.

(** State when the module has just been loaded. *)
Definition loaded : ModuleState := mkModuleState None 0.

(** [new VoiceTranscriptionService()]: the constructor calls
    [ClineAccountService.getInstance()], which ends as [ctor] says
    ([None]: it returns). *)
Definition new_VoiceTranscriptionService (ctor : option Thrown) (st : ModuleState)
  : Result Ref * ModuleState :=
  match ctor with
  | None =>
      (Returned (constructed st),
       mkModuleState (_voiceTranscriptionServiceInstance st) (S (constructed st)))
  | Some t => (Raised t, st)
  end.

Definition getVoiceTranscriptionService (ctor : option Thrown) (st : ModuleState)
  : Result Ref * ModuleState :=
  match _voiceTranscriptionServiceInstance st with
  | None =>
      match new_VoiceTranscriptionService ctor st with
      | (Returned r, st') => (Returned r, mkModuleState (Some r) (constructed st'))
      | (Raised t, st') => (Raised t, st')
      end
  | Some r => (Returned r, st)
  end.

(** Successive calls; [ctors] gives, for each call, how the constructor
    would end if that call ran it. *)
Fixpoint calls (ctors : list (option Thrown)) (st : ModuleState)
  : list (Result Ref) * ModuleState :=
  match ctors with
  | [] => ([], st)
  | c :: cs =>
      let (r, st') := getVoiceTranscriptionService c st in
      let (rs, st'') := calls cs st' in
      (r :: rs, st'')
  end.

(** What [new] has made so far matches the module variable. *)
Definition consistent (st : ModuleState) : Prop :=
  match _voiceTranscriptionServiceInstance st with
  | None => constructed st = 0
  | Some _ => constructed st = 1
  end.

End Singleton.

(* ------------------------------------------------------------------ *)
(** ** src/core/controller/dictation/startRecording.ts *)

Module StartRecording.
Local Open Scope js_scope.

Record User : Type := mkUser { uid : option string }.

(** What [authService.getInfo()] returns, as far as the code reads it. *)
Record AuthInfo : Type := mkAuthInfo { user : option User }.

(** What the recorder backend resolves with: [{ success, error? }]. *)
Record BackendResult : Type := mkBackendResult {
  backend_success : bool;
  backend_error : option string
}.

(** The proto message [RecordingResult]. *)
Record RecordingResult : Type := create {
  success : bool;
  error : string
}.

Record SelectedResponse : Type := mkSelectedResponse {
  selectedOption : option string
}.

(** [controller.task?.taskId] *)
Record Controller : Type := mkController { taskId_of : option string }.

(** Behaviour of the collaborators during one call.  The telemetry sink
    is called at most once, with the task identifier and platform of the
    call, so its behaviour is given for that one call; [initTask] and
    [showMessage] get a text that depends on what other collaborators did. *)
Record Env : Type := mkEnv {
  getInfo : Result (option AuthInfo);
  recorder_startRecording : Result BackendResult;
  telemetry_started : Result unit;
  initTask : string -> Result unit;
  showMessage : string -> Result SelectedResponse;
  createAuthRequest : Result unit
}.

Definition msg_sign_in : string :=
  "Please sign in to your Cline Account to use Dictation.".
Definition msg_ffmpeg : string :=
  "Your system is missing FFmpeg and the installation instructions have been sent to the chat".
Definition msg_unknown : string := "Unknown error occurred".
Definition signInAction : string := "Sign in to Cline".

(** [userInfo?.user?.uid], as a condition *)
Definition has_uid (userInfo : option AuthInfo) : bool :=
  match userInfo with
  | Some i => match user i with
              | Some u => Js.truthy_opt (uid u)
              | None => false
              end
  | None => false
  end.

(** [result.error && result.error.includes("FFmpeg")] *)
Definition mentions_FFmpeg (e : option string) : bool :=
  match e with
  | Some s => Js.truthy s && Js.includes s "FFmpeg"
  | None => false
  end.

(** [error instanceof Error ? error.message : "Unknown error occurred"] *)
Definition errorMessage_of (t : Thrown) : string :=
  match t with
  | ThrownAxios e => axios_message e
  | ThrownError m => m
  | ThrownValue _ => msg_unknown
  end.

(** [action.selectedOption === signInAction] *)
Definition chose_sign_in (action : SelectedResponse) : bool :=
  match selectedOption action with
  | Some o => String.eqb o signInAction
  | None => false
  end.

Definition startRecording (platform : string) (controller : Controller)
  : M Env RecordingResult :=
  let taskId := taskId_of controller in
  try (
    userInfo <- call authService_getInfo getInfo ;;
    (if negb (has_uid userInfo) then throw (ThrownError msg_sign_in) else ret tt) ;;
    result <- call audioRecordingService_startRecording recorder_startRecording ;;
    early <-
      (if backend_success result then
         call (captureVoiceRecordingStarted taskId platform) telemetry_started ;;
         ret None
       else if mentions_FFmpeg (backend_error result) then
         let text := Js.nullish (backend_error result) "" in
         call (controller_initTask text) (fun env => initTask env text) ;;
         ret (Some (create false msg_ffmpeg))
       else ret None) ;;
    match early with
    | Some r => ret r
    | None => ret (create (backend_success result) (Js.nullish (backend_error result) ""))
    end
  ) catch (fun error =>
    emit (console_error "Error starting recording:" error) ;;
    let errorMessage := errorMessage_of error in
    let message := ("Voice recording error: " ++ errorMessage)%string in
    action <- call (window_showMessage ERROR message [signInAction])
                   (fun env => showMessage env message) ;;
    (if chose_sign_in action
     then call authService_createAuthRequest createAuthRequest
     else ret tt) ;;
    ret (create false errorMessage)).

End StartRecording.

(* ------------------------------------------------------------------ *)
(** ** The rule table of the specification

    The classifier is specified as an ordered list of rules, the first
    matching one winning.  These definitions follow that wording; the
    theorems below compare them with the conditionals of the code. *)

Module RuleTable.
Import VoiceTranscriptionService.

(** A rule: the substrings that trigger it, and its message. *)
Definition Rule : Type := (list string * string)%type.

Definition matches (message : string) (r : Rule) : bool :=
  existsb (Js.includes message) (fst r).

(** The message of the first rule that matches, if any. *)
Definition lookup (table : list Rule) (message : string) : option string :=
  option_map snd (List.find (matches message) table).

(** The four network rows of the table for structured errors. *)
Definition network_rules : list Rule :=
  [ (["ENOTFOUND"], msg_no_internet);
    (["ECONNREFUSED"], msg_cannot_connect);
    (["ETIMEDOUT"; "ECONNRESET"], msg_timed_out);
    (["Network Error"], msg_network_error) ].

(** The rows the code applies to an error without a structured response. *)
Definition plain_rules : list Rule :=
  [ (["ENOTFOUND"], msg_no_internet);
    (["ECONNREFUSED"; "Network Error"], msg_cannot_connect);
    (["ETIMEDOUT"; "ECONNRESET"], msg_timed_out) ].

Definition network_substrings : list string :=
  ["ENOTFOUND"; "ECONNREFUSED"; "ETIMEDOUT"; "ECONNRESET"; "Network Error"].

End RuleTable.

(* ------------------------------------------------------------------ *)
(** ** Vocabulary for the properties of [transcribeAudio] *)

Module TranscribeAudioSpec.
Import VoiceTranscriptionService.

(** The outcome object of a call, when it returns one. *)
Definition outcome (audioBase64 : string) (language : option string) (env : Env)
  : Result Outcome :=
  fst (transcribeAudio audioBase64 language env).

Definition trace (audioBase64 : string) (language : option string) (env : Env)
  : list Event :=
  snd (transcribeAudio audioBase64 language env).

(** The catch block of the call ran on the thrown value [t]: it is the
    only place that writes this log line. *)
Definition catches (audioBase64 : string) (language : option string) (env : Env)
           (t : Thrown) : Prop :=
  In (Logger_error "Voice transcription error:" t) (trace audioBase64 language env).

(** The message the catch block searches: [message] for an axios error,
    [errorMessage] otherwise. *)
Definition extracted_message (t : Thrown) : string :=
  match t with
  | ThrownAxios e => message_of e
  | _ => errorMessage_of t
  end.

Definition is_axios (t : Thrown) : bool :=
  match t with ThrownAxios _ => true | _ => false end.

Definition populated (f : option string) : bool :=
  match f with Some _ => true | None => false end.

(** Exactly one of the two fields is populated. *)
Definition exactly_one (o : Outcome) : bool :=
  xorb (populated (text o)) (populated (error o)).

End TranscribeAudioSpec.

(* ------------------------------------------------------------------ *)
(** ** Vocabulary for the properties of [startRecording] *)

Module StartRecordingSpec.
Import StartRecording.

Definition result (platform : string) (controller : Controller) (env : Env)
  : Result RecordingResult :=
  fst (startRecording platform controller env).

Definition trace (platform : string) (controller : Controller) (env : Env)
  : list Event :=
  snd (startRecording platform controller env).

(** The catch block of the call ran on the thrown value [t]. *)
Definition catches (platform : string) (controller : Controller) (env : Env)
           (t : Thrown) : Prop :=
  In (console_error "Error starting recording:" t) (trace platform controller env).

(** The auth provider's cached state holds a subject identifier. *)
Definition signed_in (env : Env) : bool :=
  match getInfo env with
  | Returned userInfo => has_uid userInfo
  | Raised _ => false
  end.

(** The auth provider answers, and its state holds no subject identifier. *)
Definition signed_out (env : Env) : bool :=
  match getInfo env with
  | Returned userInfo => negb (has_uid userInfo)
  | Raised _ => false
  end.

(** The texts [initTask] was called with, in order. *)
Definition initTask_calls (tr : list Event) : list string :=
  flat_map (fun ev => match ev with controller_initTask s => [s] | _ => [] end) tr.

Definition is_backend_call (ev : Event) : bool :=
  match ev with audioRecordingService_startRecording => true | _ => false end.

(** The dialog shown for the message [m] resolves and, if the user picks
    the sign-in action, so does the authentication request. *)
Definition dialog_completes (env : Env) (m : string) : bool :=
  match showMessage env ("Voice recording error: " ++ m)%string with
  | Returned action =>
      if chose_sign_in action
      then match createAuthRequest env with Returned _ => true | Raised _ => false end
      else true
  | Raised _ => false
  end.

(** What the catch block returns, or raises, on the thrown value [t]. *)
Definition catch_block (env : Env) (t : Thrown) : Result RecordingResult :=
  match showMessage env ("Voice recording error: " ++ errorMessage_of t)%string with
  | Returned action =>
      if chose_sign_in action
      then match createAuthRequest env with
           | Returned _ => Returned (create false (errorMessage_of t))
           | Raised t' => Raised t'
           end
      else Returned (create false (errorMessage_of t))
  | Raised t' => Raised t'
  end.

(** The same collaborators, with a telemetry sink that does not fail. *)
Definition with_working_telemetry (env : Env) : Env :=
  mkEnv (getInfo env) (recorder_startRecording env) (Returned tt)
        (initTask env) (showMessage env) (createAuthRequest env).

End StartRecordingSpec.

(* ------------------------------------------------------------------ *)
(** ** Statements of the specification that the code does not satisfy, as worded *)

Module Worded.
Import VoiceTranscriptionService.

(** Every returned outcome has exactly one field populated. *)
Definition exactly_one_populated
           (audioBase64 : string) (language : option string) (env : Env) : Prop :=
  forall o, TranscribeAudioSpec.outcome audioBase64 language env = Returned o ->
            TranscribeAudioSpec.exactly_one o = true.

(** An error without a structured response gets the message of the
    structured table's network rows, else "Network error: " and the raw
    message. *)
Definition plain_errors_follow_network_rules
           (audioBase64 : string) (language : option string) (env : Env) : Prop :=
  forall t,
    TranscribeAudioSpec.catches audioBase64 language env t ->
    TranscribeAudioSpec.is_axios t = false ->
    TranscribeAudioSpec.outcome audioBase64 language env =
    Returned (only_error
                (match RuleTable.lookup RuleTable.network_rules (errorMessage_of t) with
                 | Some m => m
                 | None => ("Network error: " ++ errorMessage_of t)%string
                 end)).

(** The message of a thrown value: an [Error]'s message, and for any
    other value its string form. *)
Definition exception_message (t : Thrown) : string :=
  VoiceTranscriptionService.errorMessage_of t.

Import StartRecording.
Import StartRecordingSpec.

(** A backend error that mentions FFmpeg creates one task and gives the
    fixed message, which is not the backend's text. *)
Definition ffmpeg_gives_distinct_message
           (platform : string) (controller : Controller) (env : StartRecording.Env) : Prop :=
  forall s,
    signed_in env = true ->
    recorder_startRecording env = Returned (mkBackendResult false (Some s)) ->
    Js.includes s "FFmpeg" = true ->
    initTask_calls (trace platform controller env) = [s] /\
    result platform controller env = Returned (create false msg_ffmpeg) /\
    msg_ffmpeg <> s.

(** With nobody signed in the backend is not called and a failed result
    with a sign-in error is returned. *)
Definition signed_out_gets_sign_in_result
           (platform : string) (controller : Controller) (env : StartRecording.Env) : Prop :=
  signed_out env = true ->
  existsb is_backend_call (trace platform controller env) = false /\
  exists r,
    result platform controller env = Returned r /\
    success r = false /\
    Js.includes (StartRecording.error r) "sign in" = true.

(** A successful result has an empty error string. *)
Definition success_has_empty_error
           (platform : string) (controller : Controller) (env : StartRecording.Env) : Prop :=
  forall r,
    result platform controller env = Returned r ->
    success r = true -> StartRecording.error r = "".

(** Every caught exception ends in the dialog and a failed result that
    carries the exception's message; nothing is raised to the caller. *)
Definition exceptions_become_results
           (platform : string) (controller : Controller) (env : StartRecording.Env) : Prop :=
  forall t,
    catches platform controller env t ->
    result platform controller env = Returned (create false (exception_message t)).

End Worded.

(* ------------------------------------------------------------------ *)
(** ** Concrete calls *)

Module Examples.

Definition audio : string := "UklGRiQAAABXQVZF".

Module T.
Import VoiceTranscriptionService.

Definition profile : option UserInfo :=
  Some (mkUserInfo (Some [mkOrganization false; mkOrganization true])).

(** The remote call ends as [r]; everything else works. *)
Definition remote (r : Result TranscribeResult) : Env :=
  mkEnv (Returned profile) (fun _ _ => r) (Returned tt) (Returned tt).

(** A 401 answer with a body. *)
Definition unauthorized : AxiosError :=
  mkAxiosError
    (Some (mkAxiosResponse 401 (Some (mkResponseData (Some "Unauthorized") None))))
    "Request failed with status code 401".

(** A 401 answer whose body message names a DNS failure. *)
Definition unauthorized_dns : AxiosError :=
  mkAxiosError
    (Some (mkAxiosResponse 401
             (Some (mkResponseData None (Some "getaddrinfo ENOTFOUND api.cline.bot")))))
    "Request failed with status code 401".

(** The remote service resolves with no text. *)
Definition undefined_text : Env := remote (Returned (mkTranscribeResult None)).

(** The remote call rejects with a plain [Error("Network Error")]. *)
Definition plain_network_error : Env := remote (Raised (ThrownError "Network Error")).

(** The remote call rejects with a plain [Error] naming a refused connection. *)
Definition plain_refused : Env :=
  remote (Raised (ThrownError "connect ECONNREFUSED 127.0.0.1:443")).

End T.

Module R.
Import StartRecording.

Definition signed_in_user : option AuthInfo :=
  Some (mkAuthInfo (Some (mkUser (Some "user-1")))).

Definition dismissed : string -> Result SelectedResponse :=
  fun _ => Returned (mkSelectedResponse None).

Definition picks_sign_in : string -> Result SelectedResponse :=
  fun _ => Returned (mkSelectedResponse (Some signInAction)).

Definition controller : Controller := mkController (Some "task-7").

(** A signed-in user; the backend ends as [b]; everything else works and
    the dialog, if shown, is dismissed. *)
Definition backend (b : Result BackendResult) : Env :=
  mkEnv (Returned signed_in_user) b (Returned tt)
        (fun _ => Returned tt) dismissed (Returned tt).

(** The backend starts recording and the telemetry sink throws. *)
Definition telemetry_throws : Env :=
  mkEnv (Returned signed_in_user) (Returned (mkBackendResult true None))
        (Raised (ThrownError "telemetry unavailable"))
        (fun _ => Returned tt) dismissed (Returned tt).

(** Nobody is signed in; the user picks the sign-in action. *)
Definition nobody : Env :=
  mkEnv (Returned None) (Returned (mkBackendResult true None)) (Returned tt)
        (fun _ => Returned tt) picks_sign_in (Returned tt).

(** Nobody is signed in and the dialog itself fails. *)
Definition nobody_dialog_fails : Env :=
  mkEnv (Returned None) (Returned (mkBackendResult true None)) (Returned tt)
        (fun _ => Returned tt) (fun _ => Raised (ThrownError "window is closed"))
        (Returned tt).

(** The backend misses FFmpeg. *)
Definition ffmpeg_missing : Env :=
  backend (Returned (mkBackendResult false (Some "FFmpeg not found in PATH"))).

(** The backend's own text is the controller's fixed message. *)
Definition ffmpeg_same_text : Env :=
  backend (Returned (mkBackendResult false (Some msg_ffmpeg))).

(** The backend misses FFmpeg and the task cannot be created. *)
Definition ffmpeg_task_fails : Env :=
  mkEnv (Returned signed_in_user)
        (Returned (mkBackendResult false (Some "FFmpeg not found in PATH")))
        (Returned tt)
        (fun _ => Raised (ThrownError "Task could not be created"))
        dismissed (Returned tt).

(** The backend reports success together with an error text. *)
Definition success_with_text : Env :=
  backend (Returned (mkBackendResult true (Some "input level is low"))).

(** The backend rejects with a string, not an [Error]. *)
Definition backend_throws_string : Env :=
  backend (Raised (ThrownValue (Js.Str "device busy"))).

End R.

End Examples.

(* ------------------------------------------------------------------ *)
(** ** The earlier version of the service, kept in the same file *)

Module Legacy.
Import VoiceTranscriptionService.
Local Open Scope js_scope.

(** [userInfo?.organizations?.some((org) => org.active) ?? false] *)
Definition isOrgAccount_of (userInfo : option UserInfo) : bool :=
  match userInfo with
  | Some u => match organizations u with
              | Some orgs => existsb (fun org => active org) orgs
              | None => false
              end
  | None => false
  end.

(** [error.response?.data?.message || error.message] *)
Definition message_of (e : AxiosError) : string :=
  let d := match response e with Some r => data r | None => None end in
  let data_message' := match d with Some d => data_message d | None => None end in
  Js.or_string data_message' (axios_message e).

Definition msg_cannot_connect : string := "Cannot connect to transcription service.".

(** The branch [if (axios.isAxiosError(error)) { ... }]. *)
Definition on_axios_error (e : AxiosError) : Outcome :=
  let status := status_of e in
  let message := message_of e in
  match status with
  | Some 401%Z => only_error msg_reauthenticate
  | Some 402%Z => only_error msg_insufficient_credits
  | Some 400%Z => only_error msg_invalid_request
  | Some 500%Z => only_error msg_server_error
  | _ => only_error ("Transcription failed: " ++ message)%string
  end.

(** The code after the axios branch. *)
Definition on_other_error (errorMessage : string) : Outcome :=
  if Js.includes errorMessage "ECONNREFUSED" || Js.includes errorMessage "Network Error"
  then only_error msg_cannot_connect
  else only_error ("Network error: " ++ errorMessage)%string.

Definition on_error (t : Thrown) : Outcome :=
  match t with
  | ThrownAxios e => on_axios_error e
  | _ => on_other_error (errorMessage_of t)
  end.

(** The telemetry module is imported statically here, and its call stands
    in the outer [try] without a guard of its own. *)
Definition transcribeAudio (audioBase64 : string) (language : option string)
  : M Env Outcome :=
  try (
    emit (Logger_info "Transcribing audio with Cline transcription service...") ;;
    userInfo <- call ClineAccountService_fetchMe fetchMe ;;
    let isOrgAccount := isOrgAccount_of userInfo in
    result <- call (ClineAccountService_transcribeAudio audioBase64 language)
                   (fun env => account_transcribeAudio env audioBase64 language) ;;
    emit (Logger_info "Transcription successful") ;;
    call (captureVoiceTranscriptionCompleted
            (option_map Js.length (result_text result)) language isOrgAccount)
         telemetry_capture ;;
    ret (only_text (result_text result))
  ) catch (fun error =>
    emit (Logger_error "Voice transcription error:" error) ;;
    ret (on_error error)).

Definition outcome (audioBase64 : string) (language : option string) (env : Env)
  : Result Outcome :=
  fst (transcribeAudio audioBase64 language env).

End Legacy.

(* ------------------------------------------------------------------ *)
(** ** Vocabulary for the calls [transcribeAudio] makes *)

Module TranscribeAudioCalls.
Import VoiceTranscriptionService.

Definition is_telemetry (ev : Event) : bool :=
  match ev with captureVoiceTranscriptionCompleted _ _ _ => true | _ => false end.

Definition is_account_call (ev : Event) : bool :=
  match ev with
  | ClineAccountService_fetchMe | ClineAccountService_transcribeAudio _ _ => true
  | _ => false
  end.

(** The same account service, with another telemetry sink. *)
Definition with_telemetry (env : Env) (import capture : Result unit) : Env :=
  mkEnv (fetchMe env) (account_transcribeAudio env) import capture.

(** The same collaborators, with [fetchMe] resolving with another profile. *)
Definition with_profile (env : Env) (userInfo : option UserInfo) : Env :=
  mkEnv (Returned userInfo) (account_transcribeAudio env)
        (telemetry_import env) (telemetry_capture env).

(** The messages of the catch block that quote nothing of the error. *)
Definition fixed_messages : list string :=
  [ msg_no_internet; msg_cannot_connect; msg_timed_out; msg_network_error;
    msg_reauthenticate; msg_insufficient_credits; msg_invalid_audio;
    msg_invalid_request; msg_server_error ].

(** The events of a call, by what the collaborators do. *)
Definition run_trace (audioBase64 : string) (language : option string) (env : Env)
  : list Event :=
  [Logger_info "Transcribing audio with Cline transcription service...";
   ClineAccountService_fetchMe] ++
  match fetchMe env with
  | Raised t => [Logger_error "Voice transcription error:" t]
  | Returned u =>
      ClineAccountService_transcribeAudio audioBase64 language ::
      match account_transcribeAudio env audioBase64 language with
      | Raised t => [Logger_error "Voice transcription error:" t]
      | Returned r =>
          [Logger_info "Transcription successful"; import_telemetry] ++
          match telemetry_import env with
          | Raised t =>
              [Logger_warn "Could not capture telemetry for voice transcription: " t]
          | Returned _ =>
              captureVoiceTranscriptionCompleted
                (option_map Js.length (result_text r)) language (isOrgAccount_of u) ::
              match telemetry_capture env with
              | Raised t =>
                  [Logger_warn "Could not capture telemetry for voice transcription: " t]
              | Returned _ => []
              end
          end
      end
  end.

End TranscribeAudioCalls.

(* ------------------------------------------------------------------ *)
(** ** Vocabulary for the calls [startRecording] makes *)

Module StartRecordingCalls.
Import StartRecording StartRecordingSpec.

Definition is_started_telemetry (ev : Event) : bool :=
  match ev with captureVoiceRecordingStarted _ _ => true | _ => false end.

Definition is_dialog (ev : Event) : bool :=
  match ev with window_showMessage _ _ _ => true | _ => false end.

Definition is_auth_request (ev : Event) : bool :=
  match ev with authService_createAuthRequest => true | _ => false end.

(** The recorder backend resolves with success true. *)
Definition backend_started (env : Env) : bool :=
  match recorder_startRecording env with
  | Returned b => backend_success b
  | Raised _ => false
  end.

(** The recorder backend resolves with success false and an error text
    that passes the FFmpeg test. *)
Definition backend_misses_FFmpeg (env : Env) : option string :=
  match recorder_startRecording env with
  | Returned b =>
      if negb (backend_success b) && mentions_FFmpeg (backend_error b)
      then backend_error b else None
  | Raised _ => None
  end.

(** The events of the catch block on [t]. *)
Definition catch_trace (env : Env) (t : Thrown) : list Event :=
  let message := ("Voice recording error: " ++ errorMessage_of t)%string in
  console_error "Error starting recording:" t ::
  window_showMessage ERROR message [signInAction] ::
  match showMessage env message with
  | Returned action =>
      if chose_sign_in action then [authService_createAuthRequest] else []
  | Raised _ => []
  end.

(** The [try] block: its result and events, by what the collaborators do. *)
Definition try_run (platform : string) (controller : Controller) (env : Env)
  : Result RecordingResult * list Event :=
  match getInfo env with
  | Raised t => (Raised t, [authService_getInfo])
  | Returned userInfo =>
      if has_uid userInfo then
        match recorder_startRecording env with
        | Raised t =>
            (Raised t, [authService_getInfo; audioRecordingService_startRecording])
        | Returned b =>
            let passed := create (backend_success b) (Js.nullish (backend_error b) "") in
            if backend_success b then
              (match telemetry_started env with
               | Returned _ => Returned passed
               | Raised t => Raised t
               end,
               [authService_getInfo; audioRecordingService_startRecording;
                captureVoiceRecordingStarted (taskId_of controller) platform])
            else if mentions_FFmpeg (backend_error b) then
              (match initTask env (Js.nullish (backend_error b) "") with
               | Returned _ => Returned (create false msg_ffmpeg)
               | Raised t => Raised t
               end,
               [authService_getInfo; audioRecordingService_startRecording;
                controller_initTask (Js.nullish (backend_error b) "")])
            else
              (Returned passed,
               [authService_getInfo; audioRecordingService_startRecording])
        end
      else (Raised (ThrownError msg_sign_in), [authService_getInfo])
  end.

(** The whole call: the [try] block, then the catch block on what it threw. *)
Definition run (platform : string) (controller : Controller) (env : Env)
  : Result RecordingResult * list Event :=
  match try_run platform controller env with
  | (Returned r, tr) => (Returned r, tr)
  | (Raised t, tr) => (catch_block env t, tr ++ catch_trace env t)
  end.

End StartRecordingCalls.

(* ------------------------------------------------------------------ *)
(** ** Vocabulary for runs of [getVoiceTranscriptionService] *)

Module SingletonRuns.
Import Singleton.

(** The first object [new] makes after the module is loaded. *)
Definition first_object : Ref := 0.

(** The state once the first object is cached. *)
Definition cached : ModuleState := mkModuleState (Some first_object) 1.

End SingletonRuns.

(* ------------------------------------------------------------------ *)
(** ** The string search is substring search *)

Lemma prefix_append (sub s : string) :
  String.prefix sub s = true <-> exists post, s = (sub ++ post)%string.
Proof.
  revert s. induction sub as [|c sub IH]; intros s.
  - split; [intros _; exists s; reflexivity|intros _; destruct s; reflexivity].
  - destruct s as [|d s]; cbn.
    + split; [discriminate|intros [post H]; discriminate H].
    + destruct (Ascii.ascii_dec c d) as [->|N].
      * rewrite IH. split; intros [post H]; exists post; congruence.
      * split; [discriminate|intros [post H]; congruence].
Qed.

(** [Js.includes s sub] holds exactly when [s] is some text, then [sub],
    then some text. *)
Lemma includes_spec (s sub : string) :
  Js.includes s sub = true <-> exists pre post, s = (pre ++ sub ++ post)%string.
Proof.
  induction s as [|c s IH]; cbn [Js.includes].
  - destruct (String.prefix sub "") eqn:P.
    + split; [intros _|reflexivity].
      apply prefix_append in P. destruct P as [post P].
      exists "", post. exact P.
    + split; [discriminate|]. intros (pre & post & H).
      destruct pre; [|discriminate H]. cbn in H.
      assert (P' : String.prefix sub "" = true)
        by (apply prefix_append; exists post; exact H).
      congruence.
  - destruct (String.prefix sub (String c s)) eqn:P.
    + split; [intros _|reflexivity].
      apply prefix_append in P. destruct P as [post P].
      exists "", post. exact P.
    + rewrite IH. split.
      * intros (pre & post & H). exists (String c pre), post. cbn. congruence.
      * intros (pre & post & H). destruct pre as [|d pre]; cbn in H.
        -- assert (P' : String.prefix sub (String c s) = true)
             by (apply prefix_append; exists post; exact H).
           congruence.
        -- exists pre, post. congruence.
Qed.

(** On text made of ASCII characters [Js.length] counts the characters. *)
Lemma length_ascii (s : string) :
  (forall c, In c (list_ascii_of_string s) -> nat_of_ascii c < 128) ->
  Js.length s = String.length s.
Proof.
  induction s as [|c s IH]; intros H; [reflexivity|].
  cbn [Js.length String.length]. rewrite IH.
  - unfold Js.utf16_units.
    assert (L : nat_of_ascii c < 128) by (apply H; left; reflexivity).
    apply Nat.ltb_lt in L. rewrite L. reflexivity.
  - intros d D. apply H. right. exact D.
Qed.

(** Characters of two and three bytes count once, those of four bytes
    (outside the basic plane) twice. *)
Lemma length_of_encoded_text :
  Js.length "hello world" = 11 /\ Js.length "café" = 4 /\
  Js.length "こんにちは" = 5 /\ Js.length "😀" = 2.
Proof. repeat split; reflexivity. Qed.

(* ------------------------------------------------------------------ *)
(** ** Properties of [transcribeAudio] *)

Section TranscribeAudio.
Import VoiceTranscriptionService TranscribeAudioSpec.

Ltac run_transcribe :=
  unfold catches, outcome, trace, transcribeAudio,
         try_catch, bind, call, emit, ret, throw; cbn.

(** The call always returns an outcome object: what the remote service
  resolved with, or the classification of the value thrown by the first
  collaborator that failed. *)
Lemma transcribeAudio_outcome (audioBase64 : string) (language : option string) (env : Env) :
outcome audioBase64 language env =
Returned (match fetchMe env with
          | Raised t => on_error t
          | Returned _ =>
              match account_transcribeAudio env audioBase64 language with
              | Raised t => on_error t
              | Returned r => only_text (result_text r)
              end
          end).
Proof.
run_transcribe.
destruct (fetchMe env); cbn; [|reflexivity].
destruct (account_transcribeAudio env audioBase64 language); cbn; [|reflexivity].
destruct (telemetry_import env); cbn; [|reflexivity].
destruct (telemetry_capture env); reflexivity.
Qed.

(** The catch block runs on [t] exactly when [fetchMe] rejects with [t], or
  [fetchMe] resolves and the remote transcription rejects with [t]. *)
Lemma catches_iff (audioBase64 : string) (language : option string) (env : Env) (t : Thrown) :
catches audioBase64 language env t <->
fetchMe env = Raised t \/
(exists u, fetchMe env = Returned u /\
           account_transcribeAudio env audioBase64 language = Raised t).
Proof.
run_transcribe.
destruct (fetchMe env) as [u|t1]; cbn.
- destruct (account_transcribeAudio env audioBase64 language) as [r|t2]; cbn.
  + destruct (telemetry_import env); cbn;
      [destruct (telemetry_capture env); cbn|];
      (split; [intros H; repeat (destruct H as [H|H]; try discriminate H); contradiction
              |intros [H|(u' & _ & H)]; discriminate H]).
  + split.
    * intros H; repeat (destruct H as [H|H]; try discriminate H); try contradiction.
      injection H as ->. right. exists u. split; reflexivity.
    * intros [H|(u' & _ & H)]; [discriminate H|].
      injection H as ->. do 3 right. left. reflexivity.
- split.
  + intros H; repeat (destruct H as [H|H]; try discriminate H); try contradiction.
    injection H as ->. left. reflexivity.
  + intros [H|(u' & H & _)]; [|discriminate H].
    injection H as ->. do 2 right. left. reflexivity.
Qed.

(** Whatever is caught is classified by the catch block. *)
Lemma caught_outcome (audioBase64 : string) (language : option string) (env : Env) (t : Thrown) :
catches audioBase64 language env t ->
outcome audioBase64 language env = Returned (on_error t).
Proof.
intros H. apply catches_iff in H. rewrite transcribeAudio_outcome.
destruct H as [H|(u & Hu & H)].
- rewrite H. reflexivity.
- rewrite Hu, H. reflexivity.
Qed.

(** The conditionals on the network substrings of the axios branch are the
  network rows of the rule table. *)
Lemma on_axios_error_table (e : AxiosError) :
on_axios_error e =
match RuleTable.lookup RuleTable.network_rules (message_of e) with
| Some m => only_error m
| None => switch_status (status_of e) (message_of e)
end.
Proof.
unfold on_axios_error, RuleTable.lookup, RuleTable.network_rules, RuleTable.matches.
cbn [List.find existsb fst snd option_map].
destruct (Js.includes (message_of e) "ENOTFOUND"); [reflexivity|].
destruct (Js.includes (message_of e) "ECONNREFUSED"); [reflexivity|].
destruct (Js.includes (message_of e) "ETIMEDOUT"); [reflexivity|].
destruct (Js.includes (message_of e) "ECONNRESET"); [reflexivity|].
destruct (Js.includes (message_of e) "Network Error"); reflexivity.
Qed.

(** No rule of the network rows matches exactly when the message holds
  none of the five network substrings. *)
Lemma network_rules_none (m : string) :
RuleTable.lookup RuleTable.network_rules m = None <->
existsb (Js.includes m) RuleTable.network_substrings = false.
Proof.
unfold RuleTable.lookup, RuleTable.network_rules, RuleTable.matches,
       RuleTable.network_substrings.
cbn [List.find existsb fst snd option_map].
destruct (Js.includes m "ENOTFOUND"); cbn; [split; discriminate|].
destruct (Js.includes m "ECONNREFUSED"); cbn; [split; discriminate|].
destruct (Js.includes m "ETIMEDOUT"); cbn; [split; discriminate|].
destruct (Js.includes m "ECONNRESET"); cbn; [split; discriminate|].
destruct (Js.includes m "Network Error"); cbn; split; (discriminate || reflexivity).
Qed.

(** Case analysis on the condition of the conditional at the head of the
    outcome. *)
Ltac case_if :=
  match goal with
  | |- exists _, (if ?b then _ else _) = _ /\ _ => destruct b eqn:?
  end.

(** Outside its four cases the status switch takes the default branch. *)
Lemma switch_status_default (z : Z) (message : string) :
  z <> 401%Z -> z <> 402%Z -> z <> 400%Z -> z <> 500%Z ->
  switch_status (Some z) message =
  only_error ("Transcription failed: " ++ message)%string.
Proof.
  intros H1 H2 H3 H4.
  destruct z as [|p|p]; try reflexivity.
  repeat (destruct p as [p|p|]; try reflexivity; try congruence).
Qed.

(** Every branch of the status switch fills [error] with a non-empty
    string and leaves [text] out. *)
Lemma switch_status_nonempty (s : option Z) (message : string) :
  exists m, switch_status s message = only_error m /\ m <> "".
Proof.
  assert (D : exists m, only_error ("Transcription failed: " ++ message)%string
                        = only_error m /\ m <> "")
    by (eexists; split; [reflexivity|discriminate]).
  destruct s as [z|]; [|exact D].
  destruct (Z.eq_dec z 401) as [->|N1]; [eexists; split; [reflexivity|discriminate]|].
  destruct (Z.eq_dec z 402) as [->|N2]; [eexists; split; [reflexivity|discriminate]|].
  destruct (Z.eq_dec z 500) as [->|N4]; [eexists; split; [reflexivity|discriminate]|].
  destruct (Z.eq_dec z 400) as [->|N3];
    [|rewrite switch_status_default by assumption; exact D].
  cbv beta iota zeta delta [switch_status].
  destruct (Js.includes (Js.toLowerCase message) "insufficient balance"
            || Js.includes (Js.toLowerCase message) "insufficient credits");
    [eexists; split; [reflexivity|discriminate]|].
  destruct (Js.includes (Js.toLowerCase message) "invalid audio"
            || Js.includes (Js.toLowerCase message) "invalid format");
    [eexists; split; [reflexivity|discriminate]|].
  destruct (Js.includes (Js.toLowerCase message) "exceeds") eqn:Hx; cbn [andb].
  - destruct (Js.includes (Js.toLowerCase message) "limit").
    + exists message. split; [reflexivity|].
      intros ->. cbn in Hx. discriminate Hx.
    + destruct message; eexists; (split; [reflexivity|discriminate]).
  - destruct message; eexists; (split; [reflexivity|discriminate]).
Qed.

(** The catch block always produces an error message, never a text. *)
Lemma on_error_nonempty (t : Thrown) :
  exists m, on_error t = only_error m /\ m <> "".
Proof.
  destruct t as [e|msg|v]; cbn [on_error].
  - rewrite on_axios_error_table.
    destruct (RuleTable.lookup RuleTable.network_rules (message_of e)) as [m|] eqn:L.
    + exists m. split; [reflexivity|].
      unfold RuleTable.lookup in L.
      destruct (find _ _) as [row|] eqn:F; [|discriminate L].
      apply find_some in F. destruct F as [F _]. injection L as <-.
      cbn in F. intuition (subst row; discriminate).
    + apply switch_status_nonempty.
  - unfold on_other_error.
    repeat (case_if; [eexists; split; [reflexivity|discriminate]|]);
      eexists; (split; [reflexivity|discriminate]).
  - unfold on_other_error.
    repeat (case_if; [eexists; split; [reflexivity|discriminate]|]);
      eexists; (split; [reflexivity|discriminate]).
Qed.



(** C2. Whatever the catch block of [transcribeAudio] runs on, axios error
    or not and with any HTTP status, if the extracted message contains
    "ENOTFOUND" the call returns the no-internet message. *)
Theorem ENOTFOUND_no_internet
        (audioBase64 : string) (language : option string) (env : Env) (t : Thrown) :
  catches audioBase64 language env t ->
  Js.includes (extracted_message t) "ENOTFOUND" = true ->
  outcome audioBase64 language env = Returned (only_error msg_no_internet).
Proof.
  intros C H. rewrite (caught_outcome _ _ _ _ C).
  destruct t as [e|m|v]; cbn [on_error extracted_message errorMessage_of] in *.
  - unfold on_axios_error. rewrite H. reflexivity.
  - unfold on_other_error. rewrite H. reflexivity.
  - unfold on_other_error. rewrite H. reflexivity.
Qed.

Lemma ENOTFOUND_no_internet_witness :
  outcome Examples.audio None (Examples.T.remote (Raised (ThrownAxios Examples.T.unauthorized_dns)))
  = Returned (only_error "No internet connection. Please check your network and try again.").
Proof.
  apply (ENOTFOUND_no_internet
           Examples.audio None
           (Examples.T.remote (Raised (ThrownAxios Examples.T.unauthorized_dns)))
           (ThrownAxios Examples.T.unauthorized_dns)).
  - cbv. do 3 right. left. reflexivity.
  - vm_compute. reflexivity.
Defined.

(** C3, as worded, fails: when the remote service resolves with an
    undefined text the returned object has neither field populated. *)
Lemma undefined_text_populates_nothing :
  outcome Examples.audio None Examples.T.undefined_text = Returned (mkOutcome None None) /\
  ~ Worded.exactly_one_populated Examples.audio None Examples.T.undefined_text.
Proof.
  split; [reflexivity|].
  intros W. specialize (W (mkOutcome None None) eq_refl). discriminate W.
Qed.

(** C3, amended. In every outcome object the call returns, the two fields
    are never both populated, and if the catch block ran, [error] is a
    non-empty string and [text] is undefined. When [fetchMe] and the remote
    transcription resolve, the call returns an outcome whose [error] is
    undefined and whose [text] is what the remote service resolved with:
    exactly one field is populated when that text is defined, and none
    when it is undefined. When the caught error is not an axios error the
    call returns an outcome with only [error] populated. *)
Theorem outcome_fields
        (audioBase64 : string) (language : option string) (env : Env) :
  (forall o,
      outcome audioBase64 language env = Returned o ->
      populated (text o) && populated (error o) = false /\
      (forall t, catches audioBase64 language env t ->
                 text o = None /\ exists m, error o = Some m /\ m <> "")) /\
  (forall u r,
      fetchMe env = Returned u ->
      account_transcribeAudio env audioBase64 language = Returned r ->
      outcome audioBase64 language env = Returned (only_text (result_text r)) /\
      exactly_one (only_text (result_text r)) = populated (result_text r)) /\
  (forall t,
      catches audioBase64 language env t ->
      is_axios t = false ->
      exists m, outcome audioBase64 language env = Returned (only_error m) /\ m <> "").
Proof.
  split; [|split].
  - intros o. rewrite transcribeAudio_outcome. intros [= <-]. split.
    + destruct (fetchMe env) as [u|t].
      * destruct (account_transcribeAudio env audioBase64 language) as [r|t].
        -- cbn. apply andb_false_r.
        -- destruct (on_error_nonempty t) as (m & -> & _). reflexivity.
      * destruct (on_error_nonempty t) as (m & -> & _). reflexivity.
    + intros t C. apply catches_iff in C.
      destruct C as [C|(u & Cu & C)]; [rewrite C|rewrite Cu, C];
        destruct (on_error_nonempty t) as (m & -> & Hm);
        (split; [reflexivity|exists m; split; [reflexivity|exact Hm]]).
  - intros u r Hu Hr. rewrite transcribeAudio_outcome, Hu, Hr.
    split; [reflexivity|]. unfold exactly_one. cbn. apply xorb_false_r.
  - intros t C _. rewrite (caught_outcome _ _ _ _ C).
    destruct (on_error_nonempty t) as (m & -> & Hm).
    exists m. split; [reflexivity|exact Hm].
Qed.

Lemma outcome_fields_witness :
  exists m,
    outcome Examples.audio None Examples.T.plain_refused = Returned (only_error m) /\
    m <> "".
Proof.
  refine (proj2 (proj2 (outcome_fields Examples.audio None Examples.T.plain_refused))
                (ThrownError "connect ECONNREFUSED 127.0.0.1:443") _ eq_refl).
  cbv. do 3 right. left. reflexivity.
Defined.

(** C7, as worded, fails: a plain [Error("Network Error")] gets the
    "Cannot connect" message, not the "Network error." message the table
    for structured errors gives that substring. *)
Lemma plain_Network_Error_cannot_connect :
  outcome Examples.audio None Examples.T.plain_network_error
  = Returned (only_error msg_cannot_connect) /\
  ~ Worded.plain_errors_follow_network_rules
      Examples.audio None Examples.T.plain_network_error.
Proof.
  split; [reflexivity|].
  intros W. specialize (W (ThrownError "Network Error")).
  assert (C : catches Examples.audio None Examples.T.plain_network_error
                      (ThrownError "Network Error"))
    by (cbv; do 3 right; left; reflexivity).
  specialize (W C eq_refl). vm_compute in W. discriminate W.
Qed.

(** C7, amended. For a caught error that is not an axios error the call
    applies, in order: "ENOTFOUND" gives the no-internet message;
    "ECONNREFUSED" or "Network Error" the cannot-connect message;
    "ETIMEDOUT" or "ECONNRESET" the timed-out message; a message with none
    of them gives "Network error: " followed by the raw message. These are
    the messages of the table for structured errors whenever the message
    does not contain "Network Error". *)
Theorem plain_error_rules
        (audioBase64 : string) (language : option string) (env : Env) (t : Thrown) :
  catches audioBase64 language env t ->
  is_axios t = false ->
  outcome audioBase64 language env =
  Returned (only_error
              match RuleTable.lookup RuleTable.plain_rules (errorMessage_of t) with
              | Some m => m
              | None => ("Network error: " ++ errorMessage_of t)%string
              end) /\
  (Js.includes (errorMessage_of t) "Network Error" = false ->
   RuleTable.lookup RuleTable.plain_rules (errorMessage_of t) =
   RuleTable.lookup RuleTable.network_rules (errorMessage_of t)) /\
  (existsb (Js.includes (errorMessage_of t)) RuleTable.network_substrings = false ->
   outcome audioBase64 language env =
   Returned (only_error ("Network error: " ++ errorMessage_of t)%string)).
Proof.
  intros C A. rewrite (caught_outcome _ _ _ _ C).
  assert (E : on_error t = on_other_error (errorMessage_of t))
    by (destruct t; [discriminate A|reflexivity|reflexivity]).
  rewrite E. clear E C A.
  generalize (errorMessage_of t). intros m.
  unfold on_other_error, RuleTable.lookup, RuleTable.plain_rules,
         RuleTable.network_rules, RuleTable.matches, RuleTable.network_substrings.
  cbn [List.find existsb fst snd option_map].
  destruct (Js.includes m "ENOTFOUND"); cbn;
    [repeat split; intros; (reflexivity || discriminate)|].
  destruct (Js.includes m "ECONNREFUSED"); cbn;
    [repeat split; intros; (reflexivity || discriminate)|].
  destruct (Js.includes m "Network Error"); cbn.
  - repeat split; intros; try reflexivity; try discriminate.
    destruct (Js.includes m "ETIMEDOUT"); destruct (Js.includes m "ECONNRESET");
      discriminate.
  - destruct (Js.includes m "ETIMEDOUT"); cbn;
      [repeat split; intros; (reflexivity || discriminate)|].
    destruct (Js.includes m "ECONNRESET"); cbn;
      repeat split; intros; (reflexivity || discriminate).
Qed.

Lemma plain_error_rules_witness :
  outcome Examples.audio None Examples.T.plain_refused
  = Returned (only_error "Cannot connect to transcription service. Please check your internet connection.").
Proof.
  refine (proj1 (plain_error_rules
                   Examples.audio None Examples.T.plain_refused
                   (ThrownError "connect ECONNREFUSED 127.0.0.1:443") _ eq_refl)).
  cbv. do 3 right. left. reflexivity.
Defined.

End TranscribeAudio.

(* ------------------------------------------------------------------ *)
(** ** Properties of [startRecording] *)

Section StartRecordingProps.
Import StartRecording StartRecordingSpec.

Ltac run_start :=
  unfold catches, result, trace, startRecording,
         try_catch, bind, call, emit, ret, throw; cbn -[String.append].

(** One step of case analysis on what a collaborator does, or on a
    condition of the code. *)
Ltac step :=
  match goal with
  | |- context [getInfo ?e] => destruct (getInfo e) eqn:?
  | |- context [has_uid ?i] => destruct (has_uid i) eqn:?
  | |- context [recorder_startRecording ?e] =>
      destruct (recorder_startRecording e) as [[[] ?]|?] eqn:?
  | |- context [telemetry_started ?e] => destruct (telemetry_started e) eqn:?
  | |- context [mentions_FFmpeg ?x] => destruct (mentions_FFmpeg x) eqn:?
  | |- context [initTask ?e ?s] => destruct (initTask e s) eqn:?
  | |- context [showMessage ?e ?m] => destruct (showMessage e m) eqn:?
  | |- context [chose_sign_in ?a] => destruct (chose_sign_in a) eqn:?
  | |- context [createAuthRequest ?e] => destruct (createAuthRequest e) eqn:?
  end; cbn -[String.append].

(** Membership in a trace that has been computed. *)
Ltac in_trace H :=
  cbn -[String.append] in H;
  repeat (destruct H as [H|H]; [try discriminate H|]);
  try contradiction.

(** An event is in a trace that has been computed. *)
Ltac found_in_trace :=
  cbn -[String.append]; repeat (first [left; reflexivity | right]).

(** If the catch block ran on [t], the dialog was shown for the message of
    [t] and the call ends as the catch block does. *)
Lemma caught_result (platform : string) (controller : Controller) (env : Env) (t : Thrown) :
  catches platform controller env t ->
  result platform controller env = catch_block env t /\
  In (window_showMessage ERROR ("Voice recording error: " ++ errorMessage_of t)%string
                         [signInAction])
     (trace platform controller env).
Proof.
  run_start.
  repeat step.
  all: intros H; in_trace H.
  all: try (injection H as <-).
  all: unfold catch_block; cbn -[String.append];
    repeat match goal with
           | E : ?x = _ |- context [?x] => rewrite E
           end.
  all: split; [reflexivity|found_in_trace].
Qed.

(** The catch block, when the dialog and the authentication request it may
    start both resolve, returns the failed result. *)
Lemma catch_block_completes (env : Env) (t : Thrown) :
  (dialog_completes env (errorMessage_of t) = true ->
   catch_block env t = Returned (create false (errorMessage_of t))) /\
  (forall r, catch_block env t = Returned r -> r = create false (errorMessage_of t)).
Proof.
  unfold dialog_completes, catch_block.
  destruct (showMessage env _) as [action|t1].
  - destruct (chose_sign_in action).
    + destruct (createAuthRequest env); split; intros; congruence.
    + split; intros; congruence.
  - split; intros; discriminate.
Qed.

(** A text that contains "FFmpeg" passes the test of the code. *)
Lemma mentions_FFmpeg_some (s : string) :
  Js.includes s "FFmpeg" = true -> mentions_FFmpeg (Some s) = true.
Proof.
  intros H. cbn. rewrite H. destruct s; [discriminate H|reflexivity].
Qed.

(** An exception of the auth provider reaches the catch block. *)
Lemma getInfo_exception_is_caught
      (platform : string) (controller : Controller) (env : Env) (t : Thrown) :
  getInfo env = Raised t ->
  catches platform controller env t.
Proof.
  intros G. run_start. rewrite G. cbn -[String.append].
  destruct (showMessage env _) as [a|]; cbn -[String.append];
    [destruct (chose_sign_in a); cbn -[String.append];
     [destruct (createAuthRequest env)|]|];
    found_in_trace.
Qed.

(** A rejection of the recorder backend reaches the catch block. *)
Lemma backend_rejection_is_caught
      (platform : string) (controller : Controller) (env : Env) (t : Thrown) :
  signed_in env = true ->
  recorder_startRecording env = Raised t ->
  catches platform controller env t.
Proof.
  unfold signed_in. intros S R. run_start.
  destruct (getInfo env) as [i|]; [|discriminate]. rewrite S.
  cbn -[String.append]. rewrite R. cbn -[String.append].
  destruct (showMessage env _) as [a|]; cbn -[String.append];
    [destruct (chose_sign_in a); cbn -[String.append];
     [destruct (createAuthRequest env)|]|];
    found_in_trace.
Qed.

(** When the backend reports success and the telemetry call throws, the
    thrown value reaches the catch block. *)
Lemma telemetry_failure_is_caught
      (platform : string) (controller : Controller) (env : Env)
      (e : option string) (t : Thrown) :
  signed_in env = true ->
  recorder_startRecording env = Returned (mkBackendResult true e) ->
  telemetry_started env = Raised t ->
  catches platform controller env t /\
  result platform controller env = catch_block env t.
Proof.
  intros S R T.
  assert (C : catches platform controller env t).
  { revert S. unfold signed_in. run_start.
    destruct (getInfo env) as [i|]; [|discriminate]. intros ->.
    cbn -[String.append]. rewrite R. cbn -[String.append]. rewrite T.
    cbn -[String.append].
    destruct (showMessage env _) as [a|]; cbn -[String.append];
      [destruct (chose_sign_in a); cbn -[String.append];
       [destruct (createAuthRequest env)|]|];
      found_in_trace. }
  split; [exact C|]. apply caught_result, C.
Qed.

(** C4. The claim holds of the intended behaviour and fails on the code:
    the telemetry call stands inside the [try], so when it throws after a
    successful start the call shows the error dialog and returns a failed
    result, where the same collaborators with a working telemetry sink give
    the successful one. *)
Theorem telemetry_failure_changes_result :
  result "linux" Examples.R.controller Examples.R.telemetry_throws
  = Returned (create false "telemetry unavailable") /\
  result "linux" Examples.R.controller
         (with_working_telemetry Examples.R.telemetry_throws)
  = Returned (create true "") /\
  In (window_showMessage ERROR "Voice recording error: telemetry unavailable"
                         ["Sign in to Cline"])
     (trace "linux" Examples.R.controller Examples.R.telemetry_throws).
Proof.
  split; [reflexivity|]. split; [reflexivity|].
  cbv. do 4 right. left. reflexivity.
Qed.

(** C5, as worded, fails: with nobody signed in the backend is indeed not
    called, but when the error dialog itself rejects, the call rejects and
    returns no result. *)
Lemma signed_out_dialog_failure_rejects :
  signed_out Examples.R.nobody_dialog_fails = true /\
  existsb is_backend_call
          (trace "linux" Examples.R.controller Examples.R.nobody_dialog_fails) = false /\
  result "linux" Examples.R.controller Examples.R.nobody_dialog_fails
  = Raised (ThrownError "window is closed") /\
  ~ Worded.signed_out_gets_sign_in_result
      "linux" Examples.R.controller Examples.R.nobody_dialog_fails.
Proof.
  split; [reflexivity|]. split; [reflexivity|]. split; [reflexivity|].
  intros W. destruct (W eq_refl) as (_ & r & R & _).
  vm_compute in R. discriminate R.
Qed.

(** C5, amended. When the auth provider's state holds no subject identifier the
    recorder backend is never called; the sign-in error reaches the catch
    block, any result returned is the failed one with the sign-in message,
    and it is returned whenever the dialog completes. *)
Theorem signed_out_never_records
        (platform : string) (controller : Controller) (env : Env) :
  signed_out env = true ->
  existsb is_backend_call (trace platform controller env) = false /\
  catches platform controller env (ThrownError msg_sign_in) /\
  (forall r, result platform controller env = Returned r ->
             r = create false msg_sign_in) /\
  (dialog_completes env msg_sign_in = true ->
   result platform controller env = Returned (create false msg_sign_in)) /\
  Js.includes msg_sign_in "sign in" = true.
Proof.
  intros S.
  assert (C : catches platform controller env (ThrownError msg_sign_in)).
  { revert S. unfold signed_out. run_start. repeat step.
    all: intros; try discriminate; found_in_trace. }
  destruct (caught_result _ _ _ _ C) as [R _].
  destruct (catch_block_completes env (ThrownError msg_sign_in)) as [D1 D2].
  split; [|split; [exact C|split; [|split]]].
  - revert S. unfold signed_out. run_start. repeat step.
    all: intros; try discriminate; reflexivity.
  - intros r. rewrite R. apply D2.
  - intros D. rewrite R. apply D1, D.
  - reflexivity.
Qed.

Lemma signed_out_never_records_witness :
  existsb is_backend_call (trace "darwin" Examples.R.controller Examples.R.nobody) = false /\
  result "darwin" Examples.R.controller Examples.R.nobody
  = Returned (create false "Please sign in to your Cline Account to use Dictation.").
Proof.
  destruct (signed_out_never_records "darwin" Examples.R.controller Examples.R.nobody eq_refl)
    as (B & _ & _ & D & _).
  split; [exact B|]. apply D. reflexivity.
Defined.

(** C6, as worded, fails twice: when the backend's text is itself the
    fixed message the returned message does not differ from it, and when
    the task cannot be created the returned message is the task's error. *)
Lemma ffmpeg_message_not_always_distinct :
  ~ Worded.ffmpeg_gives_distinct_message
      "linux" Examples.R.controller Examples.R.ffmpeg_same_text /\
  ~ Worded.ffmpeg_gives_distinct_message
      "linux" Examples.R.controller Examples.R.ffmpeg_task_fails /\
  result "linux" Examples.R.controller Examples.R.ffmpeg_task_fails
  = Returned (create false "Task could not be created").
Proof.
  split; [|split; [|reflexivity]].
  - intros W.
    destruct (W msg_ffmpeg eq_refl eq_refl eq_refl) as (_ & _ & N).
    apply N. reflexivity.
  - intros W.
    destruct (W "FFmpeg not found in PATH" eq_refl eq_refl eq_refl) as (_ & R & _).
    vm_compute in R. discriminate R.
Qed.

(** C6, amended. When a signed-in user's backend resolves with success
    false and a text containing "FFmpeg", [initTask] is called exactly once,
    with that text. If that call resolves, the result is the failed one with
    the fixed message, whatever the backend's text; it differs from the
    backend's text unless that text is the fixed message itself. If the
    call rejects, the thrown value goes to the catch block. *)
Theorem ffmpeg_creates_one_task
        (platform : string) (controller : Controller) (env : Env) (s : string) :
  signed_in env = true ->
  recorder_startRecording env = Returned (mkBackendResult false (Some s)) ->
  Js.includes s "FFmpeg" = true ->
  initTask_calls (trace platform controller env) = [s] /\
  (forall u, initTask env s = Returned u ->
             result platform controller env = Returned (create false msg_ffmpeg)) /\
  (forall u r, initTask env s = Returned u ->
               result platform controller env = Returned r ->
               s <> msg_ffmpeg -> error r <> s) /\
  (forall t, initTask env s = Raised t -> catches platform controller env t).
Proof.
  unfold signed_in. intros S R F.
  apply mentions_FFmpeg_some in F.
  run_start.
  destruct (getInfo env) as [i|]; [|discriminate]. rewrite S.
  cbn -[String.append]. rewrite R. cbn -[String.append mentions_FFmpeg].
  rewrite F. cbn -[String.append].
  destruct (initTask env s) as [u|t] eqn:I; cbn -[String.append].
  - split; [reflexivity|]. split; [reflexivity|]. split; [|discriminate].
    intros _ r _ [= <-] N. cbn. congruence.
  - repeat step.
    all: split; [reflexivity|].
    all: split; [discriminate|]. 
    all: split; [discriminate|].
    all: intros t' [= <-]; found_in_trace.
Qed.

Lemma ffmpeg_creates_one_task_witness :
  initTask_calls (trace "win32" Examples.R.controller Examples.R.ffmpeg_missing)
  = ["FFmpeg not found in PATH"] /\
  result "win32" Examples.R.controller Examples.R.ffmpeg_missing
  = Returned (create false "Your system is missing FFmpeg and the installation instructions have been sent to the chat").
Proof.
  destruct (ffmpeg_creates_one_task
              "win32" Examples.R.controller Examples.R.ffmpeg_missing
              "FFmpeg not found in PATH" eq_refl eq_refl eq_refl)
    as (T & R & _).
  split; [exact T|]. apply (R tt). reflexivity.
Defined.

(** C8, as worded, fails: the backend's error text is passed through also
    when the backend reports success. *)
Lemma success_with_error_text :
  result "linux" Examples.R.controller Examples.R.success_with_text
  = Returned (create true "input level is low") /\
  ~ Worded.success_has_empty_error
      "linux" Examples.R.controller Examples.R.success_with_text.
Proof.
  split; [reflexivity|].
  intros W. specialize (W (create true "input level is low") eq_refl eq_refl).
  discriminate W.
Qed.

(** C8, amended. A returned result with success true comes from a backend
    that resolved with success true, and its error string is the backend's
    error text, or empty if the backend gave none; so it is empty exactly
    when the backend's error text is absent or empty. *)
Theorem success_passes_backend_error
        (platform : string) (controller : Controller) (env : Env) (r : RecordingResult) :
  result platform controller env = Returned r ->
  success r = true ->
  exists b,
    recorder_startRecording env = Returned b /\
    backend_success b = true /\
    error r = Js.nullish (backend_error b) "" /\
    (error r = "" <-> Js.truthy_opt (backend_error b) = false).
Proof.
  run_start. repeat step.
  all: intros [= <-] S; try discriminate S.
  all: eexists; split; [reflexivity|]; split; [reflexivity|]; split; [reflexivity|].
  all: cbn; match goal with
            | |- Js.nullish ?e _ = _ <-> _ => destruct e as [[|c x]|]
            end; cbn; split; intros; (reflexivity || discriminate).
Qed.

Lemma success_passes_backend_error_witness :
  exists b,
    StartRecording.recorder_startRecording Examples.R.success_with_text = Returned b /\
    backend_success b = true /\
    "input level is low" = Js.nullish (backend_error b) "".
Proof.
  destruct (success_passes_backend_error
              "linux" Examples.R.controller Examples.R.success_with_text
              (create true "input level is low") eq_refl eq_refl)
    as (b & B & S & E & _).
  exists b. split; [exact B|]. split; [exact S|exact E].
Defined.

(** C9, as worded, fails twice: an exception of the dialog in the catch
    block is raised to the caller, and for a thrown value that is not an
    [Error] the result carries "Unknown error occurred", not the value. *)
Lemma exceptions_not_always_results :
  result "linux" Examples.R.controller Examples.R.nobody_dialog_fails
  = Raised (ThrownError "window is closed") /\
  ~ Worded.exceptions_become_results
      "linux" Examples.R.controller Examples.R.nobody_dialog_fails /\
  result "linux" Examples.R.controller Examples.R.backend_throws_string
  = Returned (create false "Unknown error occurred") /\
  ~ Worded.exceptions_become_results
      "linux" Examples.R.controller Examples.R.backend_throws_string.
Proof.
  split; [reflexivity|]. split; [|split; [reflexivity|]].
  - intros W. specialize (W (ThrownError msg_sign_in)).
    assert (C : catches "linux" Examples.R.controller Examples.R.nobody_dialog_fails
                        (ThrownError msg_sign_in))
      by (cbv; right; left; reflexivity).
    specialize (W C). vm_compute in W. discriminate W.
  - intros W. specialize (W (ThrownValue (Js.Str "device busy"))).
    assert (C : catches "linux" Examples.R.controller Examples.R.backend_throws_string
                        (ThrownValue (Js.Str "device busy")))
      by (cbv; do 2 right; left; reflexivity).
    specialize (W C). vm_compute in W. discriminate W.
Qed.

(** C9, amended. When an exception reaches the catch block (from the auth
    check, the recorder backend, the telemetry call or the task creation),
    the dialog is shown with the sign-in action for the message
    "Voice recording error: " followed by the error text, which is the
    message of an [Error] and "Unknown error occurred" for any other thrown
    value. Any result returned is the failed one with that error text, and
    it is returned, whatever option the user chose, provided the dialog and
    the authentication request it may start resolve. *)
Theorem caught_exception_becomes_result
        (platform : string) (controller : Controller) (env : Env) (t : Thrown) :
  catches platform controller env t ->
  In (window_showMessage ERROR ("Voice recording error: " ++ errorMessage_of t)%string
                         [signInAction])
     (trace platform controller env) /\
  (forall r, result platform controller env = Returned r ->
             r = create false (errorMessage_of t)) /\
  (dialog_completes env (errorMessage_of t) = true ->
   result platform controller env = Returned (create false (errorMessage_of t))) /\
  errorMessage_of t = match t with
                      | ThrownValue _ => "Unknown error occurred"
                      | _ => Worded.exception_message t
                      end.
Proof.
  intros C. destruct (caught_result _ _ _ _ C) as [R I].
  destruct (catch_block_completes env t) as [D1 D2].
  split; [exact I|]. split; [|split].
  - intros r. rewrite R. apply D2.
  - intros D. rewrite R. apply D1, D.
  - destruct t; reflexivity.
Qed.

Lemma caught_exception_becomes_result_witness :
  result "linux" Examples.R.controller Examples.R.backend_throws_string
  = Returned (create false "Unknown error occurred").
Proof.
  destruct (caught_exception_becomes_result
              "linux" Examples.R.controller Examples.R.backend_throws_string
              (ThrownValue (Js.Str "device busy")))
    as (_ & _ & D & _).
  - cbv. do 2 right. left. reflexivity.
  - apply D. reflexivity.
Defined.

End StartRecordingProps.

(* ------------------------------------------------------------------ *)
(** ** Properties of [getVoiceTranscriptionService] *)

Section SingletonProps.
Import Singleton.

(** Once the module variable holds an object, a call returns it and
    changes nothing. *)
Lemma get_when_set (c : option Thrown) (st : ModuleState) (r : Ref) :
  _voiceTranscriptionServiceInstance st = Some r ->
  getVoiceTranscriptionService c st = (Returned r, st).
Proof.
  intros H. unfold getVoiceTranscriptionService. rewrite H. reflexivity.
Qed.

(** A call that returns an object leaves it in the module variable. *)
Lemma get_sets (c : option Thrown) (st st' : ModuleState) (r : Ref) :
  getVoiceTranscriptionService c st = (Returned r, st') ->
  _voiceTranscriptionServiceInstance st' = Some r.
Proof.
  unfold getVoiceTranscriptionService, new_VoiceTranscriptionService.
  destruct (_voiceTranscriptionServiceInstance st) as [r0|] eqn:I.
  - intros [= <- <-]. exact I.
  - destruct c as [t|]; intros [= <- <-]. reflexivity.
Qed.

(** With the variable set, every further call returns the same object. *)
Lemma calls_when_set (cs : list (option Thrown)) (st : ModuleState) (r : Ref) :
  _voiceTranscriptionServiceInstance st = Some r ->
  calls cs st = (map (fun _ => Returned r) cs, st).
Proof.
  intros H. induction cs as [|c cs IH]; [reflexivity|].
  cbn [calls map]. rewrite (get_when_set c st r H), IH. reflexivity.
Qed.

(** From any state: after a call has returned [r], later calls return [r]. *)
Lemma calls_stable (cs : list (option Thrown)) :
  forall (st st' : ModuleState) (rs : list (Result Ref)) (i j : nat) (r : Ref)
         (res : Result Ref),
    calls cs st = (rs, st') ->
    nth_error rs i = Some (Returned r) ->
    i <= j ->
    nth_error rs j = Some res ->
    res = Returned r.
Proof.
  induction cs as [|c cs IH]; intros st st' rs i j r res.
  - intros [= <- <-]. destruct i; discriminate.
  - cbn [calls].
    destruct (getVoiceTranscriptionService c st) as [r0 st0] eqn:G.
    destruct (calls cs st0) as [rs0 st1] eqn:K.
    intros [= <- <-] Hi Le Hj.
    destruct i as [|i].
    + cbn in Hi. injection Hi as ->.
      destruct j as [|j]; [cbn in Hj; congruence|].
      cbn in Hj. apply get_sets in G.
      rewrite (calls_when_set cs st0 r G) in K. injection K as <- <-.
      apply nth_error_In, in_map_iff in Hj. destruct Hj as (x & <- & _).
      reflexivity.
    + destruct j as [|j]; [lia|].
      cbn in Hi, Hj. apply (IH st0 st1 rs0 i j r res K Hi); [lia|exact Hj].
Qed.

Lemma get_consistent (c : option Thrown) (st st' : ModuleState) (r : Result Ref) :
  consistent st ->
  getVoiceTranscriptionService c st = (r, st') ->
  consistent st'.
Proof.
  unfold consistent, getVoiceTranscriptionService, new_VoiceTranscriptionService.
  destruct (_voiceTranscriptionServiceInstance st) as [r0|] eqn:I.
  - intros H [= <- <-]. rewrite I. exact H.
  - destruct c as [t|]; intros H [= <- <-]; cbn.
    + rewrite I. exact H.
    + rewrite H. reflexivity.
Qed.

Lemma calls_consistent (cs : list (option Thrown)) :
  forall (st st' : ModuleState) (rs : list (Result Ref)),
    consistent st -> calls cs st = (rs, st') -> consistent st'.
Proof.
  induction cs as [|c cs IH]; intros st st' rs H.
  - intros [= <- <-]. exact H.
  - cbn [calls].
    destruct (getVoiceTranscriptionService c st) as [r0 st0] eqn:G.
    destruct (calls cs st0) as [rs0 st1] eqn:K.
    intros [= <- <-]. apply (IH st0 st1 rs0); [|exact K].
    apply (get_consistent c st st0 r0 H G).
Qed.

(** C10. In any run of calls after the module is loaded, once a call has
    returned an object every later call returns that same object, and the
    constructor has made at most one object; when the constructor does not
    fail in the first call, every call of the run returns the object of the
    first call. *)
Theorem getVoiceTranscriptionService_idempotent
        (ctors : list (option Thrown)) (rs : list (Result Ref)) (st' : ModuleState) :
  calls ctors loaded = (rs, st') ->
  (forall (i j : nat) (r : Ref) (res : Result Ref),
      nth_error rs i = Some (Returned r) ->
      i <= j ->
      nth_error rs j = Some res ->
      res = Returned r) /\
  constructed st' <= 1 /\
  (hd_error ctors = Some None ->
   exists r, rs = map (fun _ => Returned r) ctors /\ constructed st' = 1).
Proof.
  intros K. split; [|split].
  - intros i j r res. apply (calls_stable ctors loaded st' rs i j r res K).
  - pose proof (calls_consistent ctors loaded st' rs eq_refl K) as C.
    unfold consistent in C.
    destruct (_voiceTranscriptionServiceInstance st'); lia.
  - destruct ctors as [|[t|] cs]; try discriminate. intros _.
    cbn [calls] in K.
    change (getVoiceTranscriptionService None loaded)
      with (Returned 0, mkModuleState (Some 0) 1) in K.
    cbv beta iota in K.
    rewrite (calls_when_set cs (mkModuleState (Some 0) 1) 0 eq_refl) in K.
    injection K as <- <-. exists 0. split; reflexivity.
Qed.

Lemma getVoiceTranscriptionService_idempotent_witness :
  fst (calls [None; Some (ThrownError "not initialised"); None] loaded)
  = [Returned 0; Returned 0; Returned 0].
Proof.
  destruct (getVoiceTranscriptionService_idempotent
              [None; Some (ThrownError "not initialised"); None]
              (fst (calls [None; Some (ThrownError "not initialised"); None] loaded))
              (snd (calls [None; Some (ThrownError "not initialised"); None] loaded))
              eq_refl)
    as (_ & _ & H).
  destruct (H eq_refl) as (r & E & _).
  rewrite E. vm_compute in E. injection E as <-. reflexivity.
Defined.

End SingletonProps.

(* ------------------------------------------------------------------ *)
(** ** Further properties of [transcribeAudio]: calls and telemetry *)

Section TranscribeAudioCallsProps.
Import VoiceTranscriptionService TranscribeAudioSpec TranscribeAudioCalls.

(** The events of a call are those listed by [run_trace]. *)
Lemma transcribeAudio_trace (audioBase64 : string) (language : option string) (env : Env) :
  trace audioBase64 language env = run_trace audioBase64 language env.
Proof.
  unfold trace, run_trace, transcribeAudio, try_catch, bind, call, emit, ret, throw.
  cbn.
  destruct (fetchMe env); cbn; [|reflexivity].
  destruct (account_transcribeAudio env audioBase64 language); cbn; [|reflexivity].
  destruct (telemetry_import env); cbn; [|reflexivity].
  destruct (telemetry_capture env); reflexivity.
Qed.

(** X1. The telemetry sink has no influence on what the call returns nor on
    the requests made to the account service: whether the import of the
    telemetry module or the capture call fails or not, the outcome and the
    account calls are the same. *)
Theorem telemetry_never_changes_outcome
        (audioBase64 : string) (language : option string) (env : Env)
        (import capture : Result unit) :
  outcome audioBase64 language (with_telemetry env import capture)
  = outcome audioBase64 language env /\
  filter is_account_call (trace audioBase64 language (with_telemetry env import capture))
  = filter is_account_call (trace audioBase64 language env).
Proof.
  split.
  - rewrite !transcribeAudio_outcome. reflexivity.
  - rewrite !transcribeAudio_trace. unfold run_trace, with_telemetry. cbn.
    destruct (fetchMe env); cbn; [|reflexivity].
    destruct (account_transcribeAudio env audioBase64 language); cbn; [|reflexivity].
    destruct import, capture, (telemetry_import env), (telemetry_capture env);
      reflexivity.
Qed.

(** X2. One attempt, in order: the profile is fetched exactly once; the audio
    is then submitted exactly once, with the payload and language given,
    if the fetch resolved, and not at all if it rejected. *)
Theorem account_calls_single_pass
        (audioBase64 : string) (language : option string) (env : Env) :
  filter is_account_call (trace audioBase64 language env)
  = ClineAccountService_fetchMe ::
    match fetchMe env with
    | Returned _ => [ClineAccountService_transcribeAudio audioBase64 language]
    | Raised _ => []
    end.
Proof.
  rewrite transcribeAudio_trace. unfold run_trace. cbn.
  destruct (fetchMe env); cbn; [|reflexivity].
  destruct (account_transcribeAudio env audioBase64 language); cbn; [|reflexivity].
  destruct (telemetry_import env); cbn; [|reflexivity].
  destruct (telemetry_capture env); reflexivity.
Qed.

(** X3. After a successful transcription the text is returned and, when the
    telemetry module can be imported, exactly one telemetry event is
    emitted, carrying the length of the text in UTF-16 code units
    (undefined if the text is),
    the language asked for and the organization flag of the fetched
    profile; when the import fails no event is emitted. *)
Theorem one_telemetry_event_on_success
        (audioBase64 : string) (language : option string) (env : Env)
        (u : option UserInfo) (r : TranscribeResult) :
  fetchMe env = Returned u ->
  account_transcribeAudio env audioBase64 language = Returned r ->
  outcome audioBase64 language env = Returned (only_text (result_text r)) /\
  filter is_telemetry (trace audioBase64 language env)
  = match telemetry_import env with
    | Returned _ =>
        [captureVoiceTranscriptionCompleted
           (option_map Js.length (result_text r)) language (isOrgAccount_of u)]
    | Raised _ => []
    end.
Proof.
  intros F A. split.
  - rewrite transcribeAudio_outcome, F, A. reflexivity.
  - rewrite transcribeAudio_trace. unfold run_trace. rewrite F, A. cbn.
    destruct (telemetry_import env); cbn; [|reflexivity].
    destruct (telemetry_capture env); reflexivity.
Qed.

Lemma one_telemetry_event_on_success_witness :
  filter is_telemetry
         (trace Examples.audio (Some "ja")
                (Examples.T.remote (Returned (mkTranscribeResult (Some "こんにちは")))))
  = [captureVoiceTranscriptionCompleted (Some 5) (Some "ja") true].
Proof.
  apply (one_telemetry_event_on_success
           Examples.audio (Some "ja")
           (Examples.T.remote (Returned (mkTranscribeResult (Some "こんにちは"))))
           Examples.T.profile (mkTranscribeResult (Some "こんにちは"))
           eq_refl eq_refl).
Defined.

(** X4. When the catch block runs, no telemetry event is emitted and the
    success line is not logged. *)
Theorem no_telemetry_on_failure
        (audioBase64 : string) (language : option string) (env : Env) (t : Thrown) :
  catches audioBase64 language env t ->
  filter is_telemetry (trace audioBase64 language env) = [] /\
  ~ In (Logger_info "Transcription successful") (trace audioBase64 language env).
Proof.
  intros C. apply catches_iff in C.
  rewrite transcribeAudio_trace. unfold run_trace.
  destruct C as [F|(u & F & A)]; [rewrite F|rewrite F, A]; cbn.
  - split; [reflexivity|]. intros H.
    repeat (destruct H as [H|H]; [discriminate H|]). contradiction.
  - split; [reflexivity|]. intros H.
    repeat (destruct H as [H|H]; [discriminate H|]). contradiction.
Qed.

Lemma no_telemetry_on_failure_witness :
  filter is_telemetry (trace Examples.audio None Examples.T.plain_refused) = [].
Proof.
  refine (proj1 (no_telemetry_on_failure
                   Examples.audio None Examples.T.plain_refused
                   (ThrownError "connect ECONNREFUSED 127.0.0.1:443") _)).
  cbv. do 3 right. left. reflexivity.
Defined.

(** X5. The organization flag is true exactly when the profile lists at
    least one organization whose [active] flag is true. *)
Theorem isOrgAccount_iff (userInfo : option UserInfo) :
  isOrgAccount_of userInfo = true <->
  exists u orgs org,
    userInfo = Some u /\ organizations u = Some orgs /\
    In org orgs /\ active org = true.
Proof.
  unfold isOrgAccount_of.
  destruct userInfo as [u|].
  - destruct (organizations u) as [orgs|] eqn:O.
    + destruct (find (fun org => active org) orgs) as [org|] eqn:F.
      * apply find_some in F. destruct F as [I A].
        split; [intros _|reflexivity]. exists u, orgs, org. auto.
      * split; [discriminate|].
        intros (u' & orgs' & org & E1 & E2 & I & A).
        injection E1 as <-. rewrite O in E2. injection E2 as <-.
        pose proof (find_none _ _ F org I) as N. cbn in N. congruence.
    + split; [discriminate|]. intros (u' & orgs' & org & E1 & E2 & _).
      injection E1 as <-. rewrite O in E2. discriminate E2.
  - split; [discriminate|]. intros (u' & orgs' & org & H & _). discriminate H.
Qed.

Lemma isOrgAccount_iff_witness :
  isOrgAccount_of Examples.T.profile = true.
Proof.
  apply (proj2 (isOrgAccount_iff Examples.T.profile)).
  exists (mkUserInfo (Some [mkOrganization false; mkOrganization true])),
         [mkOrganization false; mkOrganization true], (mkOrganization true).
  split; [reflexivity|]. split; [reflexivity|].
  split; [right; left; reflexivity|reflexivity].
Defined.

(** X6. The earlier version computes the flag with [some] where this one uses
    [find]; the two give the same flag for every profile. *)
Theorem isOrgAccount_same_in_both_versions (userInfo : option UserInfo) :
  Legacy.isOrgAccount_of userInfo = isOrgAccount_of userInfo.
Proof.
  unfold Legacy.isOrgAccount_of, isOrgAccount_of.
  destruct userInfo as [u|]; [|reflexivity].
  destruct (organizations u) as [orgs|]; [|reflexivity].
  induction orgs as [|org orgs IH]; [reflexivity|].
  cbn. destruct (active org); [reflexivity|exact IH].
Qed.

(** X7. The fetched profile only tags the telemetry event: whatever profile
    [fetchMe] resolves with, the outcome and the requests made to the
    account service are the same. *)
Theorem profile_only_tags_telemetry
        (audioBase64 : string) (language : option string) (env : Env)
        (u1 u2 : option UserInfo) :
  outcome audioBase64 language (with_profile env u1)
  = outcome audioBase64 language (with_profile env u2) /\
  filter is_account_call (trace audioBase64 language (with_profile env u1))
  = filter is_account_call (trace audioBase64 language (with_profile env u2)).
Proof.
  split.
  - rewrite !transcribeAudio_outcome. reflexivity.
  - rewrite !transcribeAudio_trace. unfold run_trace, with_profile. cbn.
    destruct (account_transcribeAudio env audioBase64 language); cbn; [|reflexivity].
    destruct (telemetry_import env); cbn; [|reflexivity].
    destruct (telemetry_capture env); reflexivity.
Qed.

End TranscribeAudioCallsProps.

(* ------------------------------------------------------------------ *)
(** ** Further properties of the catch block of [transcribeAudio] *)

Section ClassifierProps.
Import VoiceTranscriptionService TranscribeAudioSpec TranscribeAudioCalls.

(** With no response, the status is undefined and the message searched
    is the error's own. *)
Lemma no_response (e : AxiosError) :
  response e = None -> status_of e = None /\ message_of e = axios_message e.
Proof.
  unfold status_of, message_of. intros ->. split; reflexivity.
Qed.

(** X8. For an axios error the network substrings are tested before the
    status: if the extracted message matches a network rule, the message of
    the first such rule is returned whatever the status is, or if there is
    none. *)
Theorem network_rule_before_any_status
        (audioBase64 : string) (language : option string) (env : Env)
        (e : AxiosError) (m : string) :
  catches audioBase64 language env (ThrownAxios e) ->
  RuleTable.lookup RuleTable.network_rules (message_of e) = Some m ->
  outcome audioBase64 language env = Returned (only_error m).
Proof.
  intros C L. rewrite (caught_outcome _ _ _ _ C). cbn [on_error].
  rewrite on_axios_error_table, L. reflexivity.
Qed.

Lemma network_rule_before_any_status_witness :
  outcome Examples.audio None
          (Examples.T.remote (Raised (ThrownAxios
             (mkAxiosError
                (Some (mkAxiosResponse 500 (Some (mkResponseData (Some "read ECONNRESET") None))))
                "Request failed with status code 500"))))
  = Returned (only_error "Connection timed out. Please check your internet connection and try again.").
Proof.
  apply (network_rule_before_any_status
           Examples.audio None _
           (mkAxiosError
              (Some (mkAxiosResponse 500 (Some (mkResponseData (Some "read ECONNRESET") None))))
              "Request failed with status code 500")).
  - cbv. do 3 right. left. reflexivity.
  - vm_compute. reflexivity.
Defined.

(** X9. Status 402 and status 500 give their fixed message whatever the body
    of the response says, as long as it names no network failure. *)
Theorem status_402_and_500_fixed
        (audioBase64 : string) (language : option string) (env : Env) (e : AxiosError) :
  catches audioBase64 language env (ThrownAxios e) ->
  RuleTable.lookup RuleTable.network_rules (message_of e) = None ->
  (status_of e = Some 402%Z ->
   outcome audioBase64 language env = Returned (only_error msg_insufficient_credits)) /\
  (status_of e = Some 500%Z ->
   outcome audioBase64 language env = Returned (only_error msg_server_error)).
Proof.
  intros C L. rewrite (caught_outcome _ _ _ _ C). cbn [on_error].
  rewrite on_axios_error_table, L.
  split; intros ->; reflexivity.
Qed.

Lemma status_402_and_500_fixed_witness :
  outcome Examples.audio None
          (Examples.T.remote (Raised (ThrownAxios
             (mkAxiosError
                (Some (mkAxiosResponse 402 (Some (mkResponseData None (Some "Payment required")))))
                "Request failed with status code 402"))))
  = Returned (only_error "Insufficient credits for transcription service.").
Proof.
  refine (proj1 (status_402_and_500_fixed
                   Examples.audio None _
                   (mkAxiosError
                      (Some (mkAxiosResponse 402
                               (Some (mkResponseData None (Some "Payment required")))))
                      "Request failed with status code 402") _ _) eq_refl).
  - cbv. do 3 right. left. reflexivity.
  - vm_compute. reflexivity.
Defined.

(** X10. Status 400, when the message names no network failure: a message that
    mentions, in any letter case, an insufficient balance or credits gives
    the credits message; otherwise one that mentions an invalid audio or
    format gives the invalid-audio message; otherwise the server's message
    is returned word for word, and the generic text if that message is
    empty. The test on "exceeds" and "limit" changes nothing: with or
    without it the server's message is returned. *)
Theorem status_400_rules
        (audioBase64 : string) (language : option string) (env : Env) (e : AxiosError) :
  catches audioBase64 language env (ThrownAxios e) ->
  RuleTable.lookup RuleTable.network_rules (message_of e) = None ->
  status_of e = Some 400%Z ->
  (Js.includes (Js.toLowerCase (message_of e)) "insufficient balance"
   || Js.includes (Js.toLowerCase (message_of e)) "insufficient credits" = true ->
   outcome audioBase64 language env = Returned (only_error msg_insufficient_credits)) /\
  (Js.includes (Js.toLowerCase (message_of e)) "insufficient balance"
   || Js.includes (Js.toLowerCase (message_of e)) "insufficient credits" = false ->
   Js.includes (Js.toLowerCase (message_of e)) "invalid audio"
   || Js.includes (Js.toLowerCase (message_of e)) "invalid format" = true ->
   outcome audioBase64 language env = Returned (only_error msg_invalid_audio)) /\
  (Js.includes (Js.toLowerCase (message_of e)) "insufficient balance"
   || Js.includes (Js.toLowerCase (message_of e)) "insufficient credits" = false ->
   Js.includes (Js.toLowerCase (message_of e)) "invalid audio"
   || Js.includes (Js.toLowerCase (message_of e)) "invalid format" = false ->
   outcome audioBase64 language env =
   Returned (only_error (if Js.truthy (message_of e)
                         then message_of e else msg_invalid_request))).
Proof.
  intros C L S. rewrite (caught_outcome _ _ _ _ C). cbn [on_error].
  rewrite on_axios_error_table, L, S.
  cbv beta iota zeta delta [switch_status].
  split; [|split].
  - intros ->. reflexivity.
  - intros -> ->. reflexivity.
  - intros -> ->.
    destruct (Js.includes (Js.toLowerCase (message_of e)) "exceeds") eqn:X;
      [|reflexivity].
    destruct (Js.includes (Js.toLowerCase (message_of e)) "limit"); [|reflexivity].
    cbn [andb]. destruct (message_of e); [discriminate X|reflexivity].
Qed.

Lemma status_400_rules_witness :
  outcome Examples.audio None
          (Examples.T.remote (Raised (ThrownAxios
             (mkAxiosError
                (Some (mkAxiosResponse 400
                         (Some (mkResponseData (Some "Request exceeds 10MB limit") None))))
                "Request failed with status code 400"))))
  = Returned (only_error "Request exceeds 10MB limit").
Proof.
  refine (proj2 (proj2 (status_400_rules
                          Examples.audio None _
                          (mkAxiosError
                             (Some (mkAxiosResponse 400
                                      (Some (mkResponseData (Some "Request exceeds 10MB limit") None))))
                             "Request failed with status code 400") _ _ eq_refl)) _ _).
  - cbv. do 3 right. left. reflexivity.
  - vm_compute. reflexivity.
  - vm_compute. reflexivity.
  - vm_compute. reflexivity.
Defined.

(** X11. An axios error without a response (the request got no answer) has no
    status: the call returns the message of the first network rule that
    matches the error's own message, and "Transcription failed: " followed
    by that message if none does. *)
Theorem axios_error_without_response
        (audioBase64 : string) (language : option string) (env : Env) (e : AxiosError) :
  catches audioBase64 language env (ThrownAxios e) ->
  response e = None ->
  outcome audioBase64 language env =
  Returned (only_error
              match RuleTable.lookup RuleTable.network_rules (axios_message e) with
              | Some m => m
              | None => ("Transcription failed: " ++ axios_message e)%string
              end).
Proof.
  intros C R. rewrite (caught_outcome _ _ _ _ C). cbn [on_error].
  destruct (no_response e R) as [S M].
  rewrite on_axios_error_table, S, M.
  destruct (RuleTable.lookup _ _); reflexivity.
Qed.

Lemma axios_error_without_response_witness :
  outcome Examples.audio None
          (Examples.T.remote (Raised (ThrownAxios
             (mkAxiosError None "timeout of 30000ms exceeded"))))
  = Returned (only_error "Transcription failed: timeout of 30000ms exceeded").
Proof.
  apply (axios_error_without_response
           Examples.audio None _ (mkAxiosError None "timeout of 30000ms exceeded")).
  - cbv. do 3 right. left. reflexivity.
  - reflexivity.
Defined.

(** X12. A status other than 400, 401, 402 and 500 gives "Transcription
    failed: " followed by the extracted message, when that message names no
    network failure. *)
Theorem unlisted_status_quotes_message
        (audioBase64 : string) (language : option string) (env : Env)
        (e : AxiosError) (z : Z) :
  catches audioBase64 language env (ThrownAxios e) ->
  RuleTable.lookup RuleTable.network_rules (message_of e) = None ->
  status_of e = Some z ->
  z <> 400%Z -> z <> 401%Z -> z <> 402%Z -> z <> 500%Z ->
  outcome audioBase64 language env =
  Returned (only_error ("Transcription failed: " ++ message_of e)%string).
Proof.
  intros C L S N0 N1 N2 N5. rewrite (caught_outcome _ _ _ _ C). cbn [on_error].
  rewrite on_axios_error_table, L, S.
  rewrite switch_status_default by assumption. reflexivity.
Qed.

Lemma unlisted_status_quotes_message_witness :
  outcome Examples.audio None
          (Examples.T.remote (Raised (ThrownAxios
             (mkAxiosError
                (Some (mkAxiosResponse 429 (Some (mkResponseData (Some "") (Some "Too many requests")))))
                "Request failed with status code 429"))))
  = Returned (only_error "Transcription failed: Too many requests").
Proof.
  apply (unlisted_status_quotes_message
           Examples.audio None _
           (mkAxiosError
              (Some (mkAxiosResponse 429
                       (Some (mkResponseData (Some "") (Some "Too many requests")))))
              "Request failed with status code 429") 429%Z).
  - cbv. do 3 right. left. reflexivity.
  - vm_compute. reflexivity.
  - reflexivity.
  - lia.
  - lia.
  - lia.
  - lia.
Defined.

End ClassifierProps.

(* ------------------------------------------------------------------ *)
(** ** What the error text can be, and the earlier version *)

Section ErrorTextProps.
Import VoiceTranscriptionService TranscribeAudioSpec TranscribeAudioCalls.

Ltac fixed_message :=
  left; unfold fixed_messages; cbn [In]; repeat (first [left; reflexivity | right]).

(** The status switch gives a fixed message, the message itself (status
    400 only), or the message after "Transcription failed: ". *)
Lemma switch_status_range (s : option Z) (message : string) :
  exists m, switch_status s message = only_error m /\
            (In m fixed_messages \/
             (s = Some 400%Z /\ m = message) \/
             m = ("Transcription failed: " ++ message)%string).
Proof.
  assert (D : exists m, only_error ("Transcription failed: " ++ message)%string
                        = only_error m /\
                        (In m fixed_messages \/
                         (s = Some 400%Z /\ m = message) \/
                         m = ("Transcription failed: " ++ message)%string))
    by (eexists; split; [reflexivity|right; right; reflexivity]).
  destruct s as [z|]; [|exact D].
  destruct (Z.eq_dec z 401) as [->|N1]; [eexists; split; [reflexivity|fixed_message]|].
  destruct (Z.eq_dec z 402) as [->|N2]; [eexists; split; [reflexivity|fixed_message]|].
  destruct (Z.eq_dec z 500) as [->|N4]; [eexists; split; [reflexivity|fixed_message]|].
  destruct (Z.eq_dec z 400) as [->|N3];
    [|rewrite switch_status_default by assumption; exact D].
  cbv beta iota zeta delta [switch_status].
  destruct (Js.includes (Js.toLowerCase message) "insufficient balance"
            || Js.includes (Js.toLowerCase message) "insufficient credits");
    [eexists; split; [reflexivity|fixed_message]|].
  destruct (Js.includes (Js.toLowerCase message) "invalid audio"
            || Js.includes (Js.toLowerCase message) "invalid format");
    [eexists; split; [reflexivity|fixed_message]|].
  destruct (Js.includes (Js.toLowerCase message) "exceeds"
            && Js.includes (Js.toLowerCase message) "limit").
  - exists message. split; [reflexivity|]. right. left. split; reflexivity.
  - destruct (Js.truthy message).
    + exists message. split; [reflexivity|]. right. left. split; reflexivity.
    + eexists. split; [reflexivity|fixed_message].
Qed.

(** X13. The error text of a failed call is one of nine fixed messages, or it
    quotes the error in one of three ways only: the server's message word
    for word (status 400 only), the extracted message after
    "Transcription failed: " (axios errors only), or the raw message after
    "Network error: " (other errors only). *)
Theorem error_text_range
        (audioBase64 : string) (language : option string) (env : Env) (t : Thrown) :
  catches audioBase64 language env t ->
  exists m,
    outcome audioBase64 language env = Returned (only_error m) /\
    (In m fixed_messages \/
     (exists e, t = ThrownAxios e /\ status_of e = Some 400%Z /\ m = message_of e) \/
     (exists e, t = ThrownAxios e /\
                m = ("Transcription failed: " ++ message_of e)%string) \/
     (is_axios t = false /\ m = ("Network error: " ++ errorMessage_of t)%string)).
Proof.
  intros C. rewrite (caught_outcome _ _ _ _ C).
  destruct t as [e|msg|v]; cbn [on_error is_axios].
  - rewrite on_axios_error_table.
    destruct (RuleTable.lookup RuleTable.network_rules (message_of e)) as [m|] eqn:L.
    + exists m. split; [reflexivity|].
      unfold RuleTable.lookup in L.
      destruct (find _ _) as [row|] eqn:F; [|discriminate L].
      apply find_some in F. destruct F as [F _]. injection L as <-.
      cbn in F.
      repeat (destruct F as [F|F]; [subst row; fixed_message|]). contradiction.
    + destruct (switch_status_range (status_of e) (message_of e))
        as (m & -> & [I|[[S M]|M]]); exists m; (split; [reflexivity|]).
      * left. exact I.
      * right. left. exists e. auto.
      * right. right. left. exists e. auto.
  - unfold on_other_error.
    destruct (Js.includes _ "ENOTFOUND"); [eexists; split; [reflexivity|fixed_message]|].
    destruct (_ || _); [eexists; split; [reflexivity|fixed_message]|].
    destruct (_ || _); [eexists; split; [reflexivity|fixed_message]|].
    eexists. split; [reflexivity|]. right. right. right. split; reflexivity.
  - unfold on_other_error.
    destruct (Js.includes _ "ENOTFOUND"); [eexists; split; [reflexivity|fixed_message]|].
    destruct (_ || _); [eexists; split; [reflexivity|fixed_message]|].
    destruct (_ || _); [eexists; split; [reflexivity|fixed_message]|].
    eexists. split; [reflexivity|]. right. right. right. split; reflexivity.
Qed.

Lemma error_text_range_witness :
  exists m,
    outcome Examples.audio None Examples.T.plain_refused = Returned (only_error m) /\
    (In m fixed_messages \/ m = "Network error: connect ECONNREFUSED 127.0.0.1:443").
Proof.
  destruct (error_text_range Examples.audio None Examples.T.plain_refused
                             (ThrownError "connect ECONNREFUSED 127.0.0.1:443"))
    as (m & O & [I|[(e & E & _)|[(e & E & _)|[_ M]]]]).
  - cbv. do 3 right. left. reflexivity.
  - exists m. split; [exact O|left; exact I].
  - discriminate E.
  - discriminate E.
  - exists m. split; [exact O|right; exact M].
Defined.

(** What the earlier version returns. *)
Lemma legacy_outcome (audioBase64 : string) (language : option string) (env : Env) :
  Legacy.outcome audioBase64 language env =
  Returned (match fetchMe env with
            | Raised t => Legacy.on_error t
            | Returned _ =>
                match account_transcribeAudio env audioBase64 language with
                | Raised t => Legacy.on_error t
                | Returned r =>
                    match telemetry_capture env with
                    | Raised t => Legacy.on_error t
                    | Returned _ => only_text (result_text r)
                    end
                end
            end).
Proof.
  unfold Legacy.outcome, Legacy.transcribeAudio, try_catch, bind, call, emit, ret, throw.
  cbn.
  destruct (fetchMe env); cbn; [|reflexivity].
  destruct (account_transcribeAudio env audioBase64 language); cbn; [|reflexivity].
  destruct (telemetry_capture env); reflexivity.
Qed.

(** X14. In the earlier version a telemetry call that throws after a
    successful transcription turns the outcome into an error; in this
    version the same collaborators give the transcribed text. *)
Theorem telemetry_guard_keeps_text
        (audioBase64 : string) (language : option string) (env : Env)
        (u : option UserInfo) (r : TranscribeResult) (t : Thrown) :
  fetchMe env = Returned u ->
  account_transcribeAudio env audioBase64 language = Returned r ->
  telemetry_capture env = Raised t ->
  Legacy.outcome audioBase64 language env = Returned (Legacy.on_error t) /\
  text (Legacy.on_error t) = None /\
  outcome audioBase64 language env = Returned (only_text (result_text r)).
Proof.
  intros F A T. rewrite legacy_outcome, transcribeAudio_outcome, F, A, T.
  split; [reflexivity|]. split; [|reflexivity].
  destruct t as [e|m|v]; cbn [Legacy.on_error].
  - unfold Legacy.on_axios_error.
    destruct (status_of e) as [z|]; [|reflexivity].
    destruct (Z.eq_dec z 401) as [->|N1]; [reflexivity|].
    destruct (Z.eq_dec z 402) as [->|N2]; [reflexivity|].
    destruct (Z.eq_dec z 500) as [->|N4]; [reflexivity|].
    destruct (Z.eq_dec z 400) as [->|N3]; [reflexivity|].
    destruct z as [|p|p]; try reflexivity.
    repeat (destruct p as [p|p|]; try reflexivity; try congruence).
  - unfold Legacy.on_other_error. destruct (_ || _); reflexivity.
  - unfold Legacy.on_other_error. destruct (_ || _); reflexivity.
Qed.

Lemma telemetry_guard_keeps_text_witness :
  Legacy.outcome Examples.audio None
                 (with_telemetry
                    (Examples.T.remote (Returned (mkTranscribeResult (Some "hello"))))
                    (Returned tt) (Raised (ThrownError "sink closed")))
  = Returned (only_error "Network error: sink closed") /\
  outcome Examples.audio None
          (with_telemetry
             (Examples.T.remote (Returned (mkTranscribeResult (Some "hello"))))
             (Returned tt) (Raised (ThrownError "sink closed")))
  = Returned (only_text (Some "hello")).
Proof.
  destruct (telemetry_guard_keeps_text
              Examples.audio None
              (with_telemetry
                 (Examples.T.remote (Returned (mkTranscribeResult (Some "hello"))))
                 (Returned tt) (Raised (ThrownError "sink closed")))
              Examples.T.profile (mkTranscribeResult (Some "hello"))
              (ThrownError "sink closed") eq_refl eq_refl eq_refl)
    as (L & _ & O).
  split; [exact L|exact O].
Defined.

(** X15. The two versions return the same outcome after a successful
    transcription whose telemetry call does not throw, and for a caught
    error whose message names no network failure when the error is not an
    axios error or has status 401, 402 or 500. *)
Theorem versions_agree
        (audioBase64 : string) (language : option string) (env : Env) :
  (forall u r x,
      fetchMe env = Returned u ->
      account_transcribeAudio env audioBase64 language = Returned r ->
      telemetry_capture env = Returned x ->
      Legacy.outcome audioBase64 language env = outcome audioBase64 language env) /\
  (forall t,
      catches audioBase64 language env t ->
      existsb (Js.includes (extracted_message t)) RuleTable.network_substrings = false ->
      (is_axios t = false \/
       exists e, t = ThrownAxios e /\
                 (status_of e = Some 401%Z \/ status_of e = Some 402%Z \/
                  status_of e = Some 500%Z)) ->
      Legacy.outcome audioBase64 language env = outcome audioBase64 language env).
Proof.
  split.
  - intros u r x F A T.
    rewrite legacy_outcome, transcribeAudio_outcome, F, A, T. reflexivity.
  - intros t C N K.
    assert (E : Legacy.on_error t = on_error t).
    { destruct K as [K|(e & -> & K)].
      - assert (P : forall m,
                   existsb (Js.includes m) RuleTable.network_substrings = false ->
                   Legacy.on_other_error m = on_other_error m).
        { intros m. unfold RuleTable.network_substrings. cbn [existsb].
          unfold Legacy.on_other_error, on_other_error.
          destruct (Js.includes m "ENOTFOUND"); [discriminate|].
          destruct (Js.includes m "ECONNREFUSED"); [discriminate|].
          destruct (Js.includes m "ETIMEDOUT"); [discriminate|].
          destruct (Js.includes m "ECONNRESET"); [discriminate|].
          destruct (Js.includes m "Network Error"); [discriminate|].
          reflexivity. }
        destruct t as [e|m|v]; [discriminate K| |]; apply P, N.
      - cbn [on_error Legacy.on_error extracted_message] in *.
        apply network_rules_none in N.
        rewrite on_axios_error_table, N. unfold Legacy.on_axios_error.
        destruct K as [->|[->| ->]]; reflexivity. }
    rewrite legacy_outcome, transcribeAudio_outcome.
    apply catches_iff in C. destruct C as [F|(u & F & A)].
    + rewrite F, E. reflexivity.
    + rewrite F, A, E. reflexivity.
Qed.

Lemma versions_agree_witness :
  Legacy.outcome Examples.audio None
                 (Examples.T.remote (Raised (ThrownAxios Examples.T.unauthorized)))
  = outcome Examples.audio None
            (Examples.T.remote (Raised (ThrownAxios Examples.T.unauthorized))).
Proof.
  refine (proj2 (versions_agree
                   Examples.audio None
                   (Examples.T.remote (Raised (ThrownAxios Examples.T.unauthorized))))
                (ThrownAxios Examples.T.unauthorized) _ _ _).
  - cbv. do 3 right. left. reflexivity.
  - vm_compute. reflexivity.
  - right. exists Examples.T.unauthorized. split; [reflexivity|left; reflexivity].
Defined.

End ErrorTextProps.

(* ------------------------------------------------------------------ *)
(** ** Further properties of [startRecording]: calls, dialog and results *)

Section StartRecordingCallsProps.
Import StartRecording StartRecordingSpec StartRecordingCalls.

Ltac cases :=
  match goal with
  | |- context [getInfo ?e] => destruct (getInfo e) eqn:?
  | |- context [has_uid ?i] => destruct (has_uid i) eqn:?
  | |- context [recorder_startRecording ?e] =>
      destruct (recorder_startRecording e) as [[[] ?]|?] eqn:?
  | |- context [telemetry_started ?e] => destruct (telemetry_started e) eqn:?
  | |- context [mentions_FFmpeg ?x] => destruct (mentions_FFmpeg x) eqn:?
  | |- context [initTask ?e ?s] => destruct (initTask e s) eqn:?
  | |- context [showMessage ?e ?m] => destruct (showMessage e m) eqn:?
  | |- context [chose_sign_in ?a] => destruct (chose_sign_in a) eqn:?
  | |- context [createAuthRequest ?e] => destruct (createAuthRequest e) eqn:?
  end; cbn -[String.append mentions_FFmpeg Js.includes].

Ltac in_list H :=
  cbn -[String.append] in H;
  repeat (destruct H as [H|H]; [try discriminate H|]);
  try contradiction.

Ltac found :=
  cbn -[String.append]; repeat (first [left; reflexivity | right]).

(** The call is the [try] block followed, if it threw, by the catch block. *)
Lemma startRecording_run (platform : string) (controller : Controller) (env : Env) :
  startRecording platform controller env = run platform controller env.
Proof.
  unfold run, try_run, catch_block, catch_trace, startRecording,
         try_catch, bind, call, emit, ret, throw.
  cbn -[String.append mentions_FFmpeg Js.includes].
  repeat cases; reflexivity.
Qed.

Ltac by_run :=
  unfold catches, result, trace; rewrite ?startRecording_run;
  unfold run, try_run, catch_block, catch_trace, signed_in, backend_started,
         backend_misses_FFmpeg, dialog_completes;
  cbn -[String.append mentions_FFmpeg Js.includes].

(** The catch block runs on [t] exactly when the [try] block throws [t]. *)
Lemma catches_try_run (platform : string) (controller : Controller) (env : Env) (t : Thrown) :
  catches platform controller env t <->
  fst (try_run platform controller env) = Raised t.
Proof.
  by_run. repeat cases.
  all: split;
    [ intros H; in_list H; try (injection H as <-); reflexivity
    | intros H; try discriminate H; injection H as <-; found ].
Qed.

(** X16. The recorder backend is asked to start exactly once when a subject
    identifier is present, and never otherwise (nobody signed in, or the
    auth provider threw). *)
Theorem backend_called_once_iff_signed_in
        (platform : string) (controller : Controller) (env : Env) :
  filter is_backend_call (trace platform controller env)
  = if signed_in env then [audioRecordingService_startRecording] else [].
Proof.
  by_run. repeat cases; reflexivity.
Qed.

(** X17. The "recording started" telemetry event is emitted exactly once, with
    the task identifier and the platform, when a signed-in user's backend
    resolves with success true, and never otherwise. *)
Theorem started_telemetry_only_on_success
        (platform : string) (controller : Controller) (env : Env) :
  filter is_started_telemetry (trace platform controller env)
  = if signed_in env && backend_started env
    then [captureVoiceRecordingStarted (taskId_of controller) platform]
    else [].
Proof.
  by_run. repeat cases; reflexivity.
Qed.

(** X18. An assistance task is created exactly once, with the backend's error
    text, when a signed-in user's backend resolves with success false and a
    text that mentions FFmpeg, and never otherwise. *)
Theorem initTask_only_for_FFmpeg
        (platform : string) (controller : Controller) (env : Env) :
  initTask_calls (trace platform controller env)
  = if signed_in env
    then match backend_misses_FFmpeg env with Some s => [s] | None => [] end
    else [].
Proof.
  by_run. repeat cases.
  all: try reflexivity.
  all: match goal with
       | H : mentions_FFmpeg ?e = true |- _ =>
           destruct e; [reflexivity|discriminate H]
       end.
Qed.

(** X19. When the backend answers and nothing throws (the telemetry call after
    a success, no mention of FFmpeg after a failure), the backend's success
    flag and error text are passed through, with an empty text if the
    backend gave none; no dialog is shown and no task is created. *)
Theorem backend_answer_passes_through
        (platform : string) (controller : Controller) (env : Env) (b : BackendResult) :
  signed_in env = true ->
  recorder_startRecording env = Returned b ->
  (if backend_success b
   then telemetry_started env = Returned tt
   else mentions_FFmpeg (backend_error b) = false) ->
  result platform controller env
  = Returned (create (backend_success b) (Js.nullish (backend_error b) "")) /\
  filter is_dialog (trace platform controller env) = [] /\
  initTask_calls (trace platform controller env) = [].
Proof.
  by_run. intros S R. revert S. rewrite R.
  destruct (getInfo env) as [i|]; [|discriminate]. intros ->.
  destruct b as [[] e]; cbn -[String.append mentions_FFmpeg Js.includes];
    intros ->; repeat split; reflexivity.
Qed.

Lemma backend_answer_passes_through_witness :
  result "linux" Examples.R.controller
         (Examples.R.backend (Returned (mkBackendResult false (Some "No microphone found"))))
  = Returned (create false "No microphone found").
Proof.
  refine (proj1 (backend_answer_passes_through
                   "linux" Examples.R.controller
                   (Examples.R.backend
                      (Returned (mkBackendResult false (Some "No microphone found"))))
                   (mkBackendResult false (Some "No microphone found"))
                   eq_refl eq_refl _)).
  vm_compute. reflexivity.
Defined.

(** X20. The error dialog is shown exactly once, for the text of the caught
    exception, when the catch block runs; when nothing is caught no dialog
    is shown and the call returns a result. *)
Theorem dialog_exactly_when_caught
        (platform : string) (controller : Controller) (env : Env) :
  (forall t,
      catches platform controller env t ->
      filter is_dialog (trace platform controller env)
      = [window_showMessage ERROR ("Voice recording error: " ++ errorMessage_of t)%string
                            [signInAction]]) /\
  ((forall t, ~ catches platform controller env t) ->
   filter is_dialog (trace platform controller env) = [] /\
   exists r, result platform controller env = Returned r).
Proof.
  split.
  - intros t C. apply catches_try_run in C. revert C.
    by_run. repeat cases.
    all: intros H; try discriminate H; injection H as <-; reflexivity.
  - intros N.
    assert (N' : forall t, fst (try_run platform controller env) <> Raised t)
      by (intros t H; apply (N t), catches_try_run, H).
    revert N'. by_run. repeat cases.
    all: intros N'; try (exfalso; eapply N'; reflexivity).
    all: split; [reflexivity|eexists; reflexivity].
Qed.

Lemma dialog_exactly_when_caught_witness :
  filter is_dialog (trace "linux" Examples.R.controller Examples.R.nobody)
  = [window_showMessage
       ERROR "Voice recording error: Please sign in to your Cline Account to use Dictation."
       ["Sign in to Cline"]].
Proof.
  refine (proj1 (dialog_exactly_when_caught
                   "linux" Examples.R.controller Examples.R.nobody)
                (ThrownError msg_sign_in) _).
  cbv. right. left. reflexivity.
Defined.

(** X21. A new authentication request is started exactly when the catch block
    ran, its dialog resolved, and the option selected is "Sign in to
    Cline"; dismissing the dialog or any other answer starts none. *)
Theorem auth_request_only_on_choice
        (platform : string) (controller : Controller) (env : Env) :
  In authService_createAuthRequest (trace platform controller env) <->
  exists t action,
    catches platform controller env t /\
    showMessage env ("Voice recording error: " ++ errorMessage_of t)%string
    = Returned action /\
    selectedOption action = Some "Sign in to Cline".
Proof.
  assert (Ch : forall a, chose_sign_in a = true <->
                         selectedOption a = Some "Sign in to Cline").
  { intros a. unfold chose_sign_in.
    destruct (selectedOption a) as [o|].
    - rewrite String.eqb_eq. unfold signInAction. split; congruence.
    - split; discriminate. }
  split.
  - intros H.
    assert (K : exists t, fst (try_run platform controller env) = Raised t /\
                          exists a,
                            showMessage env ("Voice recording error: " ++ errorMessage_of t)%string
                            = Returned a /\ chose_sign_in a = true).
    { revert H. by_run. repeat cases.
      all: intros H; in_list H.
      all: eexists; split; [reflexivity|];
        eexists; split; [eassumption|assumption]. }
    destruct K as (t & T & a & S & C).
    exists t, a. split; [apply catches_try_run, T|].
    split; [exact S|apply Ch, C].
  - intros (t & a & C & S & O).
    apply catches_try_run in C. apply Ch in O. revert C.
    by_run. repeat cases.
    all: intros H; try discriminate H; injection H as <-.
    all: cbn -[String.append] in S; try congruence.
    all: try found.
    all: rewrite S in *; congruence.
Qed.

Lemma auth_request_only_on_choice_witness :
  In authService_createAuthRequest (trace "linux" Examples.R.controller Examples.R.nobody).
Proof.
  apply (proj2 (auth_request_only_on_choice "linux" Examples.R.controller Examples.R.nobody)).
  exists (ThrownError msg_sign_in), (mkSelectedResponse (Some signInAction)).
  split; [cbv; right; left; reflexivity|].
  split; reflexivity.
Defined.

(** X22. The call rejects only out of the catch block: exactly when an
    exception was caught and then the dialog rejected, or the user chose to
    sign in and the authentication request rejected; the caller then gets
    that second exception, not the one caught. *)
Theorem rejects_only_from_catch_block
        (platform : string) (controller : Controller) (env : Env) (t' : Thrown) :
  result platform controller env = Raised t' <->
  exists t,
    catches platform controller env t /\
    (showMessage env ("Voice recording error: " ++ errorMessage_of t)%string = Raised t' \/
     exists action,
       showMessage env ("Voice recording error: " ++ errorMessage_of t)%string
       = Returned action /\
       chose_sign_in action = true /\
       createAuthRequest env = Raised t').
Proof.
  split.
  - intros H.
    assert (K : exists t,
               fst (try_run platform controller env) = Raised t /\
               (showMessage env ("Voice recording error: " ++ errorMessage_of t)%string
                = Raised t' \/
                exists action,
                  showMessage env ("Voice recording error: " ++ errorMessage_of t)%string
                  = Returned action /\
                  chose_sign_in action = true /\
                  createAuthRequest env = Raised t')).
    { revert H. by_run. repeat cases.
      all: intros H; try discriminate H; injection H as <-.
      all: eexists; split; [reflexivity|].
      all: first [ left; eassumption
                 | right; eexists; split;
                   [eassumption|split; first [assumption|reflexivity]] ]. }
    destruct K as (t & T & K). exists t. split; [apply catches_try_run, T|exact K].
  - intros (t & C & K). rewrite (proj1 (caught_result _ _ _ _ C)).
    unfold catch_block.
    destruct K as [->|(a & -> & -> & ->)]; reflexivity.
Qed.

Lemma rejects_only_from_catch_block_witness :
  result "linux" Examples.R.controller Examples.R.nobody_dialog_fails
  = Raised (ThrownError "window is closed").
Proof.
  apply (proj2 (rejects_only_from_catch_block
                  "linux" Examples.R.controller Examples.R.nobody_dialog_fails
                  (ThrownError "window is closed"))).
  exists (ThrownError msg_sign_in).
  split; [cbv; right; left; reflexivity|].
  left. reflexivity.
Defined.

(** X23. Where a failed result's error text comes from: the backend's own
    text, passed through, when the backend resolved with success false
    without mentioning FFmpeg; the fixed FFmpeg message when it did mention
    it; or the text of the exception the catch block ran on. *)
Theorem failed_result_sources
        (platform : string) (controller : Controller) (env : Env) (r : RecordingResult) :
  result platform controller env = Returned r ->
  success r = false ->
  (exists b,
      recorder_startRecording env = Returned b /\
      backend_success b = false /\
      error r = if mentions_FFmpeg (backend_error b)
                then msg_ffmpeg
                else Js.nullish (backend_error b) "") \/
  (exists t, catches platform controller env t /\ error r = errorMessage_of t).
Proof.
  intros H S.
  assert (K : (exists b,
                  recorder_startRecording env = Returned b /\
                  backend_success b = false /\
                  error r = if mentions_FFmpeg (backend_error b)
                            then msg_ffmpeg
                            else Js.nullish (backend_error b) "") \/
              (exists t, fst (try_run platform controller env) = Raised t /\
                         error r = errorMessage_of t)).
  { revert H. by_run. repeat cases.
    all: intros H; try discriminate H; injection H as <-; try discriminate S.
    all: first
           [ right; eexists; split; reflexivity
           | left; eexists; split; [reflexivity|]; split; [reflexivity|];
             cbn -[String.append mentions_FFmpeg Js.includes];
             match goal with
             | E : mentions_FFmpeg _ = _ |- _ => rewrite E
             end; reflexivity ]. }
  destruct K as [K|(t & T & E)]; [left; exact K|].
  right. exists t. split; [apply catches_try_run, T|exact E].
Qed.

Lemma failed_result_sources_witness :
  exists t,
    catches "linux" Examples.R.controller Examples.R.ffmpeg_task_fails t /\
    "Task could not be created" = errorMessage_of t.
Proof.
  destruct (failed_result_sources
              "linux" Examples.R.controller Examples.R.ffmpeg_task_fails
              (create false "Task could not be created") eq_refl eq_refl)
    as [(b & B & _ & E)|K].
  - exfalso. vm_compute in B. injection B as <-. vm_compute in E. discriminate E.
  - exact K.
Defined.

End StartRecordingCallsProps.

(* ------------------------------------------------------------------ *)
(** ** Further properties of [getVoiceTranscriptionService]: failed
       constructions *)

Section SingletonRunsProps.
Import Singleton SingletonRuns.

(** A run of calls can be cut in two. *)
Lemma calls_app (cs1 cs2 : list (option Thrown)) :
  forall st : ModuleState,
    calls (cs1 ++ cs2) st =
    let (rs1, st1) := calls cs1 st in
    let (rs2, st2) := calls cs2 st1 in
    (rs1 ++ rs2, st2).
Proof.
  induction cs1 as [|c cs1 IH]; intros st.
  - cbn. destruct (calls cs2 st). reflexivity.
  - cbn [calls app].
    destruct (getVoiceTranscriptionService c st) as [r st0].
    rewrite IH.
    destruct (calls cs1 st0) as [rs1 st1].
    destruct (calls cs2 st1) as [rs2 st2]. reflexivity.
Qed.

(** While the constructor throws, every call raises what it threw and the
    module stays as loaded. *)
Lemma calls_all_fail (fails : list Thrown) :
  calls (map Some fails) loaded = (map Raised fails, loaded).
Proof.
  induction fails as [|t fails IH]; [reflexivity|].
  cbn [map calls].
  change (getVoiceTranscriptionService (Some t) loaded) with (@Raised Ref t, loaded).
  cbv beta iota. rewrite IH. reflexivity.
Qed.

(** X25. A construction that throws is not remembered: each call made while the
    constructor throws raises that exception to its caller and leaves the
    module variable unset, the next call runs the constructor again, and
    from the first call whose construction succeeds on, every call returns
    that one object, whatever the constructor would do. *)
Theorem construction_retried_until_success
        (fails : list Thrown) (rest : list (option Thrown)) :
  calls (map Some fails) loaded = (map Raised fails, loaded) /\
  calls (map Some fails ++ None :: rest) loaded
  = (map Raised fails ++ Returned first_object
                      :: map (fun _ => Returned first_object) rest,
     cached).
Proof.
  split; [apply calls_all_fail|].
  rewrite calls_app, calls_all_fail.
  cbn [calls].
  change (getVoiceTranscriptionService None loaded) with (Returned first_object, cached).
  cbv beta iota.
  rewrite (calls_when_set rest cached first_object eq_refl). reflexivity.
Qed.

End SingletonRunsProps.
